(** * Simbody: MobilizedBody operators and the Constraint interface

    A shallow embedding of the inline operators of [MobilizedBody]
    (MobilizedBody.h) and of the [Constraint] interface (Constraint.h),
    with the properties their documentation promises.

    Layout:
    - [Real], [Vec3], [Rotation], [Transform], [SpatialVec]: the value types
      the header takes from SimTKcommon;
    - [Stage], [Exception], [Result]: realization stages and the way a
      failed [SimTK_ASSERT_ALWAYS] or stage check surfaces;
    - [State] and the responses ([getBodyTransform], ...);
    - the basic and high-level operators, written as in the header;
    - the constraint equation layout;
    - the theorems. *)

From Stdlib Require Import Reals Lra Lia String.
From stdpp Require Import base list.

Local Open Scope R_scope.

(* ===================================================================== *)
(** ** Scalars *)
(* ===================================================================== *)

(** Modelled from the spec: [Real] is SimTKcommon's [Real] (a C++
    [double]).  The spec takes the math library as exact ("zero-epsilon"):
    a [Real] is either an exact real number or [NaN].  A division by zero
    and the square root of a negative number give [NaN], and [NaN]
    propagates through every operation.  Rounding, overflow, infinities
    and signed zeros are not modelled, so a property that holds only in
    exact arithmetic (one that needs associativity, distributivity,
    cancellation or an exactly orthogonal rotation matrix) says nothing
    about the doubles of the code, and none is stated below: the theorems
    rest on case analysis, on the stage checks, on list layout, and on
    facts of arithmetic that doubles share ([a + b = b + a],
    [a - b = -(b - a)], [x - x = 0] and [0 * x = 0] for finite [x],
    [sqrt x >= 0]). *)
Inductive Real : Type :=
  | Fin (x : R)
  | NaN.

Definition Real_lift2 (f : R -> R -> R) (a b : Real) : Real :=
  match a, b with
  | Fin x, Fin y => Fin (f x y)
  | _, _ => NaN
  end.

Definition Real_add : Real -> Real -> Real := Real_lift2 Rplus.
Definition Real_sub : Real -> Real -> Real := Real_lift2 Rminus.
Definition Real_mul : Real -> Real -> Real := Real_lift2 Rmult.

Definition Real_neg (a : Real) : Real :=
  match a with
  | Fin x => Fin (- x)
  | NaN => NaN
  end.

(** [a / b]; NaN when [b] is zero. *)
Definition Real_div (a b : Real) : Real :=
  match a, b with
  | Fin x, Fin y => if Req_dec_T y 0 then NaN else Fin (x / y)
  | _, _ => NaN
  end.

(** [std::sqrt]; NaN on a negative argument. *)
Definition Real_sqrt (a : Real) : Real :=
  match a with
  | Fin x => if Rlt_dec x 0 then NaN else Fin (sqrt x)
  | NaN => NaN
  end.

(** The C++ test [d==0]: false on NaN. *)
Definition Real_is_zero (a : Real) : bool :=
  match a with
  | Fin x => if Req_dec_T x 0 then true else false
  | NaN => false
  end.

Definition Real_finite (a : Real) : Prop :=
  match a with
  | Fin _ => True
  | NaN => False
  end.

Declare Scope Real_scope.
Delimit Scope Real_scope with Real.
Bind Scope Real_scope with Real.
Infix "+" := Real_add : Real_scope.
Infix "-" := Real_sub : Real_scope.
Infix "*" := Real_mul : Real_scope.
Infix "/" := Real_div : Real_scope.

(* ===================================================================== *)
(** ** Vec3, Rotation, Transform, SpatialVec *)
(* ===================================================================== *)

(** Modelled from the spec: the value types and operators of the external
    math library (spec section 6: composition [*], inverse [~], cross and
    dot products), here and below with their textbook definitions. *)
Record Vec3 : Type := mkVec3 { v0 : Real; v1 : Real; v2 : Real }.

Definition Vec3_zero : Vec3 := mkVec3 (Fin 0) (Fin 0) (Fin 0).

(** [Vec3::getNaN()]. *)
Definition Vec3_getNaN : Vec3 := mkVec3 NaN NaN NaN.

Definition Vec3_finite (v : Vec3) : Prop :=
  Real_finite (v0 v) /\ Real_finite (v1 v) /\ Real_finite (v2 v).

Definition Vec3_add (a b : Vec3) : Vec3 :=
  mkVec3 (v0 a + v0 b) (v1 a + v1 b) (v2 a + v2 b)%Real.

Definition Vec3_sub (a b : Vec3) : Vec3 :=
  mkVec3 (v0 a - v0 b) (v1 a - v1 b) (v2 a - v2 b)%Real.

Definition Vec3_neg (a : Vec3) : Vec3 :=
  mkVec3 (Real_neg (v0 a)) (Real_neg (v1 a)) (Real_neg (v2 a)).

(** [s * v] and [v / s] with a scalar [s]. *)
Definition Vec3_scale (s : Real) (a : Vec3) : Vec3 :=
  mkVec3 (s * v0 a) (s * v1 a) (s * v2 a)%Real.

Definition Vec3_div (a : Vec3) (s : Real) : Vec3 :=
  mkVec3 (v0 a / s) (v1 a / s) (v2 a / s)%Real.

Definition dot (a b : Vec3) : Real :=
  (v0 a * v0 b + v1 a * v1 b + v2 a * v2 b)%Real.

(** The cross product, written [a % b] in the header and [cross a b]
    here. *)
Definition cross (a b : Vec3) : Vec3 :=
  mkVec3 (v1 a * v2 b - v2 a * v1 b)
         (v2 a * v0 b - v0 a * v2 b)
         (v0 a * v1 b - v1 a * v0 b)%Real.

(** [v.norm()]. *)
Definition norm (a : Vec3) : Real := Real_sqrt (dot a a).

Declare Scope Vec3_scope.
Delimit Scope Vec3_scope with Vec3.
Bind Scope Vec3_scope with Vec3.
Infix "+" := Vec3_add : Vec3_scope.
Infix "-" := Vec3_sub : Vec3_scope.

(** A [Rotation] is stored as its three rows. *)
Record Rotation : Type := mkRotation { row0 : Vec3; row1 : Vec3; row2 : Vec3 }.

Definition Rotation_identity : Rotation :=
  mkRotation (mkVec3 (Fin 1) (Fin 0) (Fin 0))
             (mkVec3 (Fin 0) (Fin 1) (Fin 0))
             (mkVec3 (Fin 0) (Fin 0) (Fin 1)).

Definition col0 (M : Rotation) : Vec3 := mkVec3 (v0 (row0 M)) (v0 (row1 M)) (v0 (row2 M)).
Definition col1 (M : Rotation) : Vec3 := mkVec3 (v1 (row0 M)) (v1 (row1 M)) (v1 (row2 M)).
Definition col2 (M : Rotation) : Vec3 := mkVec3 (v2 (row0 M)) (v2 (row1 M)) (v2 (row2 M)).

(** [~R]. *)
Definition Rotation_transpose (M : Rotation) : Rotation :=
  mkRotation (col0 M) (col1 M) (col2 M).

(** [R * v]. *)
Definition Rotation_apply (M : Rotation) (v : Vec3) : Vec3 :=
  mkVec3 (dot (row0 M) v) (dot (row1 M) v) (dot (row2 M) v).

(** [R1 * R2]. *)
Definition Rotation_mul (A B : Rotation) : Rotation :=
  mkRotation
    (mkVec3 (dot (row0 A) (col0 B)) (dot (row0 A) (col1 B)) (dot (row0 A) (col2 B)))
    (mkVec3 (dot (row1 A) (col0 B)) (dot (row1 A) (col1 B)) (dot (row1 A) (col2 B)))
    (mkVec3 (dot (row2 A) (col0 B)) (dot (row2 A) (col1 B)) (dot (row2 A) (col2 B))).

(** [Transform] X_BF: rotation R_BF and the origin offset T_BF. *)
Record Transform : Type := mkTransform { R_ : Rotation; T_ : Vec3 }.

(** [Transform()], the identity. *)
Definition Transform_identity : Transform :=
  mkTransform Rotation_identity Vec3_zero.

(** [X * p]: a station of frame F re-measured in B, [R*p + T]. *)
Definition Transform_apply (X : Transform) (p : Vec3) : Vec3 :=
  (Rotation_apply (R_ X) p + T_ X)%Vec3.

(** [~X * p]: a station of frame B re-measured in F, [~R * (p - T)]. *)
Definition Transform_apply_inverse (X : Transform) (p : Vec3) : Vec3 :=
  Rotation_apply (Rotation_transpose (R_ X)) (p - T_ X)%Vec3.

(** [~X] as a [Transform]: rotation [~R], offset [-(~R*T)]. *)
Definition Transform_invert (X : Transform) : Transform :=
  mkTransform (Rotation_transpose (R_ X))
              (Vec3_neg (Rotation_apply (Rotation_transpose (R_ X)) (T_ X))).

(** [X_AB * X_BC]. *)
Definition Transform_compose (X Y : Transform) : Transform :=
  mkTransform (Rotation_mul (R_ X) (R_ Y))
              (T_ X + Rotation_apply (R_ X) (T_ Y))%Vec3.

(** [SpatialVec]: element 0 is the angular part, element 1 the linear
    part. *)
Record SpatialVec : Type := mkSpatialVec { sv0 : Vec3; sv1 : Vec3 }.

(* ===================================================================== *)
(** ** Stages and failures *)
(* ===================================================================== *)

Inductive Stage : Type :=
  | Empty | Topology | Model | Instance | Time
  | Position | Velocity | Dynamics | Acceleration.

Definition Stage_index (g : Stage) : nat :=
  match g with
  | Empty => 0 | Topology => 1 | Model => 2 | Instance => 3 | Time => 4
  | Position => 5 | Velocity => 6 | Dynamics => 7 | Acceleration => 8
  end%nat.

(** [a <= b] on stages. *)
Definition Stage_leb (a b : Stage) : bool := (Stage_index a <=? Stage_index b)%nat.

(** The stage just below [g] ([Empty] stays). *)
Definition Stage_prev (g : Stage) : Stage :=
  match g with
  | Empty => Empty | Topology => Empty | Model => Topology | Instance => Model
  | Time => Instance | Position => Time | Velocity => Position
  | Dynamics => Velocity | Acceleration => Dynamics
  end.

Definition Stage_min (a b : Stage) : Stage := if Stage_leb a b then a else b.

(** What a failing call throws. [StageViolation needed have]: a quantity of
    stage [needed] was asked of a State realized only to [have].
    [Assert what msg]: a failed [SimTK_ASSERT_ALWAYS]. *)
Inductive Exception : Type :=
  | StageViolation (needed have : Stage)
  | Assert (what msg : string)
  | IndexOutOfRange
  | DimensionMismatch.

Inductive Result (A : Type) : Type :=
  | Ok (a : A)
  | Throw (e : Exception).
Arguments Ok {A} a.
Arguments Throw {A} e.

Definition bind {A B : Type} (c : Result A) (k : A -> Result B) : Result B :=
  match c with
  | Ok a => k a
  | Throw e => Throw e
  end.

Notation "'do' x <- c ;; k" := (bind c (fun x => k))
  (at level 10, x name, c at level 99, k at level 200).
Notation "'do' ' p <- c ;; k" := (bind c (fun p => k))
  (at level 10, p pattern, c at level 99, k at level 200).

(** Modelled from the spec: [SimTK_ASSERT_ALWAYS(cond, msg)], a macro of
    SimTKcommon; it throws whenever [cond] is false, in every build.
    [what] is the text of the asserted condition. *)
Definition SimTK_ASSERT_ALWAYS (cond : bool) (what msg : string) : Result unit :=
  if cond then Ok tt else Throw (Assert what msg).

(** A C string literal used as a condition is a non-null pointer: true. *)
Definition literal_as_bool (s : string) : bool := true.

(* ===================================================================== *)
(** ** State *)
(* ===================================================================== *)

(** A [MobilizedBody] handle; [isSameMobilizedBody] compares the
    implementation objects, which the index identifies. *)
Record MobilizedBody : Type := mkMobilizedBody { mobilizedBodyIndex : nat }.

(** q and u slots of one mobilizer inside the subsystem's vectors. *)
Record Partition : Type := mkPartition
  { qStart : nat; nq : nat; uStart : nat; nu : nat }.

(** Modelled from the spec: the State container of SimTKcommon (spec
    sections 3, 4.1 and 6): the stage marker, q and u, the Model-stage
    partition of q and u among the mobilizers, the per-body cache
    entries filled at Position, Velocity and Acceleration stage, and the
    multipliers of all constraints, one segment per constraint. *)
Record State : Type := mkState
  { systemStage : Stage;
    qVector : list Real;
    uVector : list Real;
    partition : nat -> Partition;
    X_GB_cache : nat -> Transform;
    V_GB_cache : nat -> SpatialVec;
    A_GB_cache : nat -> SpatialVec;
    multiplierCache : list Real }.

(** Modelled from the spec: a reader asserts that the marker has reached
    the stage of the quantity it returns. *)
Definition checkStage (s : State) (needed : Stage) : Result unit :=
  if Stage_leb needed (systemStage s) then Ok tt
  else Throw (StageViolation needed (systemStage s)).

(** Modelled from the spec: [isSameMobilizedBody] is declared only; true
    when "the implementation objects [are] the same object". *)
Definition isSameMobilizedBody (b a : MobilizedBody) : bool :=
  Nat.eqb (mobilizedBodyIndex b) (mobilizedBodyIndex a).

(** Modelled from the spec: [isGround] is declared only; true when this
    "is actually body 0 of some matter subsystem". *)
Definition isGround (b : MobilizedBody) : bool :=
  Nat.eqb (mobilizedBodyIndex b) 0.

(** *** Responses

    The responses are declared in the header and defined in the library;
    each is a read of the State guarded by the stage the header names. *)

(** Modelled from the spec: "State must have been realized to
    Stage::Model". *)
Definition getNumQ (b : MobilizedBody) (s : State) : Result nat :=
  do _ <- checkStage s Model ;; Ok (nq (partition s (mobilizedBodyIndex b))).

(** Modelled from the spec: as [getNumQ]. *)
Definition getNumU (b : MobilizedBody) (s : State) : Result nat :=
  do _ <- checkStage s Model ;; Ok (nu (partition s (mobilizedBodyIndex b))).

(** Modelled from the spec: "This response is available at Position
    stage", a cache read guarded by the stage marker. *)
Definition getBodyTransform (b : MobilizedBody) (s : State) : Result Transform :=
  do _ <- checkStage s Position ;; Ok (X_GB_cache s (mobilizedBodyIndex b)).

Definition getBodyRotation (b : MobilizedBody) (s : State) : Result Rotation :=
  do X <- getBodyTransform b s ;; Ok (R_ X).

Definition getBodyOriginLocation (b : MobilizedBody) (s : State) : Result Vec3 :=
  do X <- getBodyTransform b s ;; Ok (T_ X).

(** Modelled from the spec: "This response is available at Velocity
    stage". *)
Definition getBodyVelocity (b : MobilizedBody) (s : State) : Result SpatialVec :=
  do _ <- checkStage s Velocity ;; Ok (V_GB_cache s (mobilizedBodyIndex b)).

Definition getBodyAngularVelocity (b : MobilizedBody) (s : State) : Result Vec3 :=
  do V <- getBodyVelocity b s ;; Ok (sv0 V).

Definition getBodyOriginVelocity (b : MobilizedBody) (s : State) : Result Vec3 :=
  do V <- getBodyVelocity b s ;; Ok (sv1 V).

(** Modelled from the spec: "This response is available at Acceleration
    stage". *)
Definition getBodyAcceleration (b : MobilizedBody) (s : State) : Result SpatialVec :=
  do _ <- checkStage s Acceleration ;; Ok (A_GB_cache s (mobilizedBodyIndex b)).

Definition getBodyAngularAcceleration (b : MobilizedBody) (s : State) : Result Vec3 :=
  do A <- getBodyAcceleration b s ;; Ok (sv0 A).

Definition getBodyOriginAcceleration (b : MobilizedBody) (s : State) : Result Vec3 :=
  do A <- getBodyAcceleration b s ;; Ok (sv1 A).

(* ===================================================================== *)
(** ** Basic operators *)
(* ===================================================================== *)

(** [return getBodyTransform(s) * locationOnB;] *)
Definition locateBodyPointOnGround (B : MobilizedBody) (s : State)
    (locationOnB : Vec3) : Result Vec3 :=
  do X_GB <- getBodyTransform B s ;;
  Ok (Transform_apply X_GB locationOnB).

(** [return ~getBodyTransform(s) * locationOnG;] *)
Definition locateGroundPointOnBody (B : MobilizedBody) (s : State)
    (locationOnG : Vec3) : Result Vec3 :=
  do X_GB <- getBodyTransform B s ;;
  Ok (Transform_apply_inverse X_GB locationOnG).

Definition locateBodyPointOnBody (B : MobilizedBody) (s : State)
    (locationOnB : Vec3) (toBodyA : MobilizedBody) : Result Vec3 :=
  do p <- locateBodyPointOnGround B s locationOnB ;;
  locateGroundPointOnBody toBodyA s p.

(** [return getBodyRotation(s)*vectorInB;] *)
Definition expressBodyVectorInGround (B : MobilizedBody) (s : State)
    (vectorInB : Vec3) : Result Vec3 :=
  do R_GB <- getBodyRotation B s ;;
  Ok (Rotation_apply R_GB vectorInB).

(** [return ~getBodyRotation(s)*vectorInG;] *)
Definition expressGroundVectorInBody (B : MobilizedBody) (s : State)
    (vectorInG : Vec3) : Result Vec3 :=
  do R_GB <- getBodyRotation B s ;;
  Ok (Rotation_apply (Rotation_transpose R_GB) vectorInG).

Definition calcBodyFixedPointVelocityInGround (B : MobilizedBody) (s : State)
    (stationOnB : Vec3) : Result Vec3 :=
  do w <- getBodyAngularVelocity B s ;;
  do v <- getBodyOriginVelocity B s ;;
  do r <- expressBodyVectorInGround B s stationOnB ;;
  Ok (v + cross w r)%Vec3.

(** The two output arguments are returned as a pair
    [(locationOnGround, velocityInGround)]. *)
Definition calcBodyFixedPointLocationAndVelocityInGround (B : MobilizedBody)
    (s : State) (locationOnB : Vec3) : Result (Vec3 * Vec3) :=
  do r_G_OB <- getBodyOriginLocation B s ;;
  do r <- expressBodyVectorInGround B s locationOnB ;;
  let locationOnGround := (r_G_OB + r)%Vec3 in
  do w <- getBodyAngularVelocity B s ;;
  do v <- getBodyOriginVelocity B s ;;
  let velocityInGround := (v + cross w r)%Vec3 in
  Ok (locationOnGround, velocityInGround).

Definition calcBodyFixedPointAccelerationInGround (B : MobilizedBody)
    (s : State) (stationOnB : Vec3) : Result Vec3 :=
  do w <- getBodyAngularVelocity B s ;;
  do b <- getBodyAngularAcceleration B s ;;
  do a <- getBodyOriginAcceleration B s ;;
  do r <- expressBodyVectorInGround B s stationOnB ;;
  Ok (a + cross b r + cross w (cross w r))%Vec3.

(** The three output arguments are returned as a triple
    [(locationOnGround, velocityInGround, accelerationInGround)]. *)
Definition calcBodyFixedPointLocationVelocityAndAccelerationInGround
    (B : MobilizedBody) (s : State) (locationOnB : Vec3)
    : Result (Vec3 * Vec3 * Vec3) :=
  do R_GB <- getBodyRotation B s ;;
  do r_G_OB <- getBodyOriginLocation B s ;;
  let r := Rotation_apply R_GB locationOnB in
  let locationOnGround := (r_G_OB + r)%Vec3 in
  do w <- getBodyAngularVelocity B s ;;
  do v <- getBodyOriginVelocity B s ;;
  do b <- getBodyAngularAcceleration B s ;;
  do a <- getBodyOriginAcceleration B s ;;
  let wXr := cross w r in
  let velocityInGround := (v + wXr)%Vec3 in
  let accelerationInGround := (a + cross b r + cross w wXr)%Vec3 in
  Ok (locationOnGround, velocityInGround, accelerationInGround).

(** *** Utilities on u-like vectors *)

(** Modelled from the spec: [updOneFromUPartition] is declared only; it
    "returns a writable reference to one of the u's associated with this
    mobilizer from a supplied u-like Vector", [which] "numbering from zero
    to getNumU()-1".  The reference is modelled by the index of the slot. *)
Definition updOneFromUPartition (B : MobilizedBody) (s : State) (which : Z)
    (ulike : list Real) : Result nat :=
  do n <- getNumU B s ;;
  if negb (length ulike =? length (uVector s))%nat then Throw DimensionMismatch
  else if ((0 <=? which)%Z && (which <? Z.of_nat n)%Z)%bool
  then Ok (uStart (partition s (mobilizedBodyIndex B)) + Z.to_nat which)%nat
  else Throw IndexOutOfRange.

(** [slot += f] through a reference into [v]. *)
Definition addInto (v : list Real) (slot : nat) (f : Real) : Result (list Real) :=
  match v !! slot with
  | Some x => Ok (<[slot := (x + f)%Real]> v)
  | None => Throw IndexOutOfRange
  end.

(** [updOneFromUPartition(s,which,mobilityForces) += f;]
    The updated [mobilityForces] is returned. *)
Definition applyOneMobilityForce (B : MobilizedBody) (s : State) (which : Z)
    (f : Real) (mobilityForces : list Real) : Result (list Real) :=
  do slot <- updOneFromUPartition B s which mobilityForces ;;
  addInto mobilityForces slot f.

(** Modelled from the spec: [Pin::updMyPartU] is declared only; a Pin has
    one mobility, so its part of a u-like vector is its slot 0. *)
Definition Pin_updMyPartU (B : MobilizedBody) (s : State)
    (ulike : list Real) : Result nat :=
  updOneFromUPartition B s 0%Z ulike.

(** [updMyPartU(s,mobilityForces) += torque;] *)
Definition Pin_applyPinTorque (B : MobilizedBody) (s : State) (torque : Real)
    (mobilityForces : list Real) : Result (list Real) :=
  do slot <- Pin_updMyPartU B s mobilityForces ;;
  addInto mobilityForces slot torque.

(* ===================================================================== *)
(** ** High-level operators *)
(* ===================================================================== *)

(** Return X_AB, the transform to body B's frame from body A's frame.
    [~X_GA * X_GB] is the composition of the inverted X_GA with X_GB. *)
Definition calcBodyTransformFromBody (B : MobilizedBody) (s : State)
    (fromBodyA : MobilizedBody) : Result Transform :=
  if isSameMobilizedBody B fromBodyA then Ok Transform_identity
  else if isGround fromBodyA then getBodyTransform B s
  else if isGround B then
    do X_GA <- getBodyTransform fromBodyA s ;;
    Ok (Transform_invert X_GA)
  else
    do X_GA <- getBodyTransform fromBodyA s ;;
    do X_GB <- getBodyTransform B s ;;
    Ok (Transform_compose (Transform_invert X_GA) X_GB).

Definition unimplemented_method : string := "unimplemented method".

Definition msg_calcBodyMovingPointVelocityInBody : string :=
  "MobilizedBody::calcBodyMovingPointVelocityInBody() is not yet implemented -- any volunteers?".

Definition msg_calcBodyMovingPointAccelerationInBody : string :=
  "MobilizedBody::calcBodyMovingPointAccelerationInBody() is not yet implemented -- any volunteers?".

Definition msg_calcMovingPointToPointDistanceTimeDerivative : string :=
  "MobilizedBody::calcMovingPointToPointDistanceTimeDerivative() is not yet implemented -- any volunteers?".

(** The asserted condition is the negation of a string literal. *)
Definition calcBodyMovingPointVelocityInBody (B : MobilizedBody) (s : State)
    (locationOnBodyB velocityOnBodyB : Vec3) (inBodyA : MobilizedBody)
    : Result Vec3 :=
  do _ <- SimTK_ASSERT_ALWAYS (negb (literal_as_bool unimplemented_method))
            unimplemented_method msg_calcBodyMovingPointVelocityInBody ;;
  Ok Vec3_getNaN.

Definition calcBodyMovingPointAccelerationInBody (B : MobilizedBody)
    (s : State) (locationOnBodyB velocityOnBodyB accelerationOnBodyB : Vec3)
    (inBodyA : MobilizedBody) : Result Vec3 :=
  do _ <- SimTK_ASSERT_ALWAYS (negb (literal_as_bool unimplemented_method))
            unimplemented_method msg_calcBodyMovingPointAccelerationInBody ;;
  Ok Vec3_getNaN.

Definition calcMovingPointToPointDistanceTimeDerivative (B : MobilizedBody)
    (s : State) (locationOnBodyB velocityOnBodyB : Vec3)
    (bodyA : MobilizedBody) (locationOnBodyA velocityOnBodyA : Vec3)
    : Result Real :=
  do _ <- SimTK_ASSERT_ALWAYS (negb (literal_as_bool unimplemented_method))
            unimplemented_method
            msg_calcMovingPointToPointDistanceTimeDerivative ;;
  Ok NaN.

(** d/dt of the distance between a station of B and a station of A. *)
Definition calcFixedPointToPointDistanceTimeDerivative (B : MobilizedBody)
    (s : State) (locationOnBodyB : Vec3) (bodyA : MobilizedBody)
    (locationOnBodyA : Vec3) : Result Real :=
  if isSameMobilizedBody B bodyA then Ok (Fin 0)
  else
    do '(rB, vB) <- calcBodyFixedPointLocationAndVelocityInGround B s locationOnBodyB ;;
    do '(rA, vA) <- calcBodyFixedPointLocationAndVelocityInGround bodyA s locationOnBodyA ;;
    let r := (rA - rB)%Vec3 in
    let v := (vA - vB)%Vec3 in
    let d := norm r in
    if Real_is_zero d then Ok (norm v)
    else Ok (dot v (Vec3_div r d)).

(** d^2/dt^2 of the same distance.  The local [s] of the source (the
    speed) is named [speed] here. *)
Definition calcFixedPointToPointDistance2ndTimeDerivative (B : MobilizedBody)
    (s : State) (locationOnBodyB : Vec3) (bodyA : MobilizedBody)
    (locationOnBodyA : Vec3) : Result Real :=
  if isSameMobilizedBody B bodyA then Ok (Fin 0)
  else
    do '(rB, vB, aB) <-
      calcBodyFixedPointLocationVelocityAndAccelerationInGround B s locationOnBodyB ;;
    do '(rA, vA, aA) <-
      calcBodyFixedPointLocationVelocityAndAccelerationInGround bodyA s locationOnBodyA ;;
    let r := (rA - rB)%Vec3 in
    let v := (vA - vB)%Vec3 in
    let a := (aA - aB)%Vec3 in
    let d := norm r in
    if Real_is_zero d then
      let speed := norm v in
      if Real_is_zero speed then Ok (norm a)
      else Ok (dot a (Vec3_div v speed))
    else
      let u := Vec3_div r d in
      let vp := (v - Vec3_scale (dot v u) u)%Vec3 in
      Ok (dot a u + dot vp v / d)%Real.

(* ===================================================================== *)
(** ** Realization and invalidation *)
(* ===================================================================== *)

Definition setStage (s : State) (g : Stage) : State :=
  mkState g (qVector s) (uVector s) (partition s)
          (X_GB_cache s) (V_GB_cache s) (A_GB_cache s) (multiplierCache s).

Definition setQ (s : State) (q : list Real) : State :=
  mkState (systemStage s) q (uVector s) (partition s)
          (X_GB_cache s) (V_GB_cache s) (A_GB_cache s) (multiplierCache s).

(** Modelled from the spec: "any mutation of a quantity associated with
    stage S invalidates (resets the marker to below) S and all higher
    stages". *)
Definition invalidate (s : State) (g : Stage) : State :=
  setStage s (Stage_min (systemStage s) (Stage_prev g)).

(** Modelled from the spec: the stage callbacks of the system, which
    compute the cache entries of a stage from the State. *)
Record System : Type := mkSystem
  { realizePosition : State -> nat -> Transform;
    realizeVelocity : State -> nat -> SpatialVec;
    realizeAcceleration : State -> nat -> SpatialVec;
    realizeMultipliers : State -> list Real }.

Definition realizeStage (sys : System) (s : State) (g : Stage) : State :=
  match g with
  | Position =>
      mkState g (qVector s) (uVector s) (partition s)
              (realizePosition sys s) (V_GB_cache s) (A_GB_cache s)
              (multiplierCache s)
  | Velocity =>
      mkState g (qVector s) (uVector s) (partition s)
              (X_GB_cache s) (realizeVelocity sys s) (A_GB_cache s)
              (multiplierCache s)
  | Acceleration =>
      mkState g (qVector s) (uVector s) (partition s)
              (X_GB_cache s) (V_GB_cache s)
              (realizeAcceleration sys s) (realizeMultipliers sys s)
  | _ => setStage s g
  end.

(** Modelled from the spec: [realize(State&, stage)] (section 4.1): a
    stage already realized is left alone, the next stage above the marker
    is computed, and a stage further up fails with [StageViolation]
    because the stage below it is not realized. *)
Definition realize (sys : System) (s : State) (g : Stage) : Result State :=
  if Stage_leb g (systemStage s) then Ok s
  else if (Stage_index g =? S (Stage_index (systemStage s)))%nat
  then Ok (realizeStage sys s g)
  else Throw (StageViolation (Stage_prev g) (systemStage s)).

(** Modelled from the spec: [setOneQ] is declared only ("MODEL STAGE
    solvers": [which] numbers from zero to getNumQ()-1); "setting q
    invalidates Position and above". *)
Definition setOneQ (B : MobilizedBody) (s : State) (which : Z) (v : Real)
    : Result State :=
  do n <- getNumQ B s ;;
  if ((0 <=? which)%Z && (which <? Z.of_nat n)%Z)%bool then
    let slot := (qStart (partition s (mobilizedBodyIndex B)) + Z.to_nat which)%nat in
    Ok (invalidate (setQ s (<[slot := v]> (qVector s))) Position)
  else Throw IndexOutOfRange.

(** Modelled from the spec: [setQVector] is declared only; [v] is "a
    Vector of length getNumQ()". *)
Definition setQVector (B : MobilizedBody) (s : State) (v : list Real)
    : Result State :=
  do n <- getNumQ B s ;;
  if (length v =? n)%nat then
    let start := qStart (partition s (mobilizedBodyIndex B)) in
    Ok (invalidate
          (setQ s (take start (qVector s) ++ v ++ drop (start + n) (qVector s)))
          Position)
  else Throw DimensionMismatch.

(* ===================================================================== *)
(** ** Constraints *)
(* ===================================================================== *)

(** Body forces over the constrained bodies and mobility forces over the
    constrained mobilities. *)
Definition Forces : Type := (list SpatialVec * list Real)%type.

(** A constraint: its equation counts and the callbacks of
    [Constraint::Custom].  An error callback is handed a count and a buffer
    of that many [Real]s; it is modelled by the value it writes into each
    entry.  A force callback receives its own multipliers and updates the
    two force arrays. *)
Record Constraint : Type := mkConstraint
  { mp : nat; mv : nat; ma : nat;
    calcPositionErrors : State -> nat -> Real;
    calcPositionDotErrors : State -> nat -> Real;
    calcPositionDotDotErrors : State -> nat -> Real;
    applyPositionConstraintForces : State -> list Real -> Forces -> Forces;
    calcVelocityErrors : State -> nat -> Real;
    calcVelocityDotErrors : State -> nat -> Real;
    applyVelocityConstraintForces : State -> list Real -> Forces -> Forces;
    calcAccelerationErrors : State -> nat -> Real;
    applyAccelerationConstraintForces : State -> list Real -> Forces -> Forces }.

(** A buffer of [n] entries filled by a callback. *)
Definition fillBuffer (n : nat) (f : nat -> Real) : list Real :=
  map f (seq 0 n).

Definition numEquations (c : Constraint) : nat := (mp c + mv c + ma c)%nat.

(** Modelled from the spec: [getPositionError] is declared only
    ("mp of these"). *)
Definition getPositionError (c : Constraint) (s : State) : Result (list Real) :=
  do _ <- checkStage s Position ;;
  Ok (fillBuffer (mp c) (calcPositionErrors c s)).

(** Modelled from the spec: [getVelocityError] is declared only ("mp+mv of
    these"); "nonholonomic errors stack after holonomic-derivative
    errors". *)
Definition getVelocityError (c : Constraint) (s : State) : Result (list Real) :=
  do _ <- checkStage s Velocity ;;
  Ok (fillBuffer (mp c) (calcPositionDotErrors c s)
      ++ fillBuffer (mv c) (calcVelocityErrors c s)).

(** Modelled from the spec: [getAccelerationError] is declared only
    ("mp+mv+ma of these"), stacked like the velocity errors. *)
Definition getAccelerationError (c : Constraint) (s : State) : Result (list Real) :=
  do _ <- checkStage s Acceleration ;;
  Ok (fillBuffer (mp c) (calcPositionDotDotErrors c s)
      ++ fillBuffer (mv c) (calcVelocityDotErrors c s)
      ++ fillBuffer (ma c) (calcAccelerationErrors c s)).

(** Start of constraint [i]'s segment in the multipliers of all the
    constraints [cs], concatenated in index order. *)
Definition multiplierStart (cs : list Constraint) (i : nat) : nat :=
  foldr (fun c n => (numEquations c + n)%nat) 0%nat (take i cs).

Definition totalEquations (cs : list Constraint) : nat :=
  foldr (fun c n => (numEquations c + n)%nat) 0%nat cs.

(** Modelled from the spec: [getMultipliers] is declared only ("mp+mv+ma of
    these"); the multipliers are "a global concatenation across all active
    constraints in index order", of which a constraint reads its segment. *)
Definition getMultipliers (cs : list Constraint) (i : nat) (s : State)
    : Result (list Real) :=
  do _ <- checkStage s Acceleration ;;
  match cs !! i with
  | Some c =>
      Ok (take (numEquations c) (drop (multiplierStart cs i) (multiplierCache s)))
  | None => Throw IndexOutOfRange
  end.

(** Modelled from the spec: [calcConstraintForcesFromMultipliers] is
    declared only.  "We expect that lambda has been packed to include
    multipliers associated with the second derivatives of the position
    (holonomic) constraints, the first derivatives of the velocity
    (nonholonomic) constraints, and the acceleration only constraints, in
    that order.  The state must be realized already to Stage::Position."
    A level without equations is never called. *)
Definition calcConstraintForcesFromMultipliers (c : Constraint) (s : State)
    (lambda : list Real) (forces : Forces) : Result Forces :=
  do _ <- checkStage s Position ;;
  if negb (length lambda =? numEquations c)%nat then Throw DimensionMismatch
  else
    let f1 := if (0 <? mp c)%nat
              then applyPositionConstraintForces c s (take (mp c) lambda) forces
              else forces in
    let f2 := if (0 <? mv c)%nat
              then applyVelocityConstraintForces c s
                     (take (mv c) (drop (mp c) lambda)) f1
              else f1 in
    let f3 := if (0 <? ma c)%nat
              then applyAccelerationConstraintForces c s
                     (drop (mp c + mv c) lambda) f2
              else f2 in
    Ok f3.

(* ===================================================================== *)
(** ** Further operators of the header *)
(* ===================================================================== *)

(** Return R_AB, the rotation to body B's axes from body A's axes. *)
Definition calcBodyRotationFromBody (B : MobilizedBody) (s : State)
    (fromBodyA : MobilizedBody) : Result Rotation :=
  if isSameMobilizedBody B fromBodyA then Ok Rotation_identity
  else if isGround fromBodyA then getBodyRotation B s
  else if isGround B then
    do R_GA <- getBodyRotation fromBodyA s ;;
    Ok (Rotation_transpose R_GA)
  else
    do R_GA <- getBodyRotation fromBodyA s ;;
    do R_GB <- getBodyRotation B s ;;
    Ok (Rotation_mul (Rotation_transpose R_GA) R_GB).

(** Return r_OA_OB, the origin of B measured from the origin of A and
    expressed in A. *)
Definition calcBodyOriginLocationInBody (B : MobilizedBody) (s : State)
    (inBodyA : MobilizedBody) : Result Vec3 :=
  if isSameMobilizedBody B inBodyA then Ok Vec3_zero
  else
    do r_OG_OB <- getBodyOriginLocation B s ;;
    if isGround inBodyA then Ok r_OG_OB
    else locateGroundPointOnBody inBodyA s r_OG_OB.

(** A station of B re-measured from the origin of A and expressed in A. *)
Definition calcBodyPointLocationInBody (B : MobilizedBody) (s : State)
    (locationOnBodyB : Vec3) (inBodyA : MobilizedBody) : Result Vec3 :=
  if isSameMobilizedBody B inBodyA then Ok locationOnBodyB
  else if isGround inBodyA then locateBodyPointOnGround B s locationOnBodyB
  else if isGround B then locateGroundPointOnBody inBodyA s locationOnBodyB
  else locateBodyPointOnBody B s locationOnBodyB inBodyA.

(** Modelled from the spec: [Rotation * SpatialVec] of the math library
    rotates the angular and the linear part. *)
Definition SpatialVec_rotate (M : Rotation) (V : SpatialVec) : SpatialVec :=
  mkSpatialVec (Rotation_apply M (sv0 V)) (Rotation_apply M (sv1 V)).

Definition SpatialVec_zero : SpatialVec := mkSpatialVec Vec3_zero Vec3_zero.

(** Angular and linear velocity of B's frame in A's frame, expressed in
    A. *)
Definition calcBodySpatialVelocityInBody (B : MobilizedBody) (s : State)
    (inBodyA : MobilizedBody) : Result SpatialVec :=
  do V_GB <- getBodyVelocity B s ;;
  if isGround inBodyA then Ok V_GB
  else
    do V_GA <- getBodyVelocity inBodyA s ;;
    let w_AB_G := (sv0 V_GB - sv0 V_GA)%Vec3 in
    do X_GB <- getBodyTransform B s ;;
    do X_GA <- getBodyTransform inBodyA s ;;
    let p_AB_G := (T_ X_GB - T_ X_GA)%Vec3 in
    let p_AB_G_dot := (sv1 V_GB - sv1 V_GA)%Vec3 in
    let v_AB_G := (p_AB_G_dot - cross (sv0 V_GA) p_AB_G)%Vec3 in
    Ok (SpatialVec_rotate (Rotation_transpose (R_ X_GA))
          (mkSpatialVec w_AB_G v_AB_G)).

Definition calcBodyAngularVelocityInBody (B : MobilizedBody) (s : State)
    (inBodyA : MobilizedBody) : Result Vec3 :=
  do V_GB <- getBodyVelocity B s ;;
  if isGround inBodyA then Ok (sv0 V_GB)
  else
    do V_GA <- getBodyVelocity inBodyA s ;;
    let w_AB_G := (sv0 V_GB - sv0 V_GA)%Vec3 in
    expressGroundVectorInBody inBodyA s w_AB_G.

Definition calcBodyOriginVelocityInBody (B : MobilizedBody) (s : State)
    (inBodyA : MobilizedBody) : Result Vec3 :=
  do V_AB <- calcBodySpatialVelocityInBody B s inBodyA ;;
  Ok (sv1 V_AB).

(** Velocity of a station of B in A's frame, expressed in A. *)
Definition calcBodyFixedPointVelocityInBody (B : MobilizedBody) (s : State)
    (locationOnBodyB : Vec3) (inBodyA : MobilizedBody) : Result Vec3 :=
  do R_AB <- calcBodyRotationFromBody B s inBodyA ;;
  do V_AB <- calcBodySpatialVelocityInBody B s inBodyA ;;
  let p_OB_P_A := Rotation_apply R_AB locationOnBodyB in
  let v_AP := (sv1 V_AB + cross (sv0 V_AB) p_OB_P_A)%Vec3 in
  Ok v_AP.

(** Angular and linear acceleration of B's frame in A's frame, expressed
    in A. *)
Definition calcBodySpatialAccelerationInBody (B : MobilizedBody) (s : State)
    (inBodyA : MobilizedBody) : Result SpatialVec :=
  do A_GB <- getBodyAcceleration B s ;;
  if isGround inBodyA then Ok A_GB
  else
    do X_GB <- getBodyTransform B s ;;
    let p_GB := T_ X_GB in
    do X_GA <- getBodyTransform inBodyA s ;;
    let p_GA := T_ X_GA in
    do V_GB <- getBodyVelocity B s ;;
    do V_GA <- getBodyVelocity inBodyA s ;;
    do A_GA <- getBodyAcceleration inBodyA s ;;
    let w_GA := sv0 V_GA in
    let w_GB := sv0 V_GB in
    let b_GA := sv0 A_GA in
    let b_GB := sv0 A_GB in
    let p_AB_G := (p_GB - p_GA)%Vec3 in
    let p_AB_G_dot := (sv1 V_GB - sv1 V_GA)%Vec3 in
    let p_AB_G_dotdot := (sv1 A_GB - sv1 A_GA)%Vec3 in
    let w_AB_G := (w_GB - w_GA)%Vec3 in
    let v_AB_G := (p_AB_G_dot - cross w_GA p_AB_G)%Vec3 in
    let w_AB_G_dot := (b_GB - b_GA)%Vec3 in
    let v_AB_G_dot :=
      (p_AB_G_dotdot - (cross b_GA p_AB_G + cross w_GA p_AB_G_dot))%Vec3 in
    let b_AB_G := (w_AB_G_dot - cross w_GA w_AB_G)%Vec3 in
    let a_AB_G := (v_AB_G_dot - cross w_GA v_AB_G)%Vec3 in
    Ok (SpatialVec_rotate (Rotation_transpose (R_ X_GA))
          (mkSpatialVec b_AB_G a_AB_G)).

Definition calcBodyAngularAccelerationInBody (B : MobilizedBody) (s : State)
    (inBodyA : MobilizedBody) : Result Vec3 :=
  do A_AB <- calcBodySpatialAccelerationInBody B s inBodyA ;;
  Ok (sv0 A_AB).

Definition calcBodyOriginAccelerationInBody (B : MobilizedBody) (s : State)
    (inBodyA : MobilizedBody) : Result Vec3 :=
  do A_AB <- calcBodySpatialAccelerationInBody B s inBodyA ;;
  Ok (sv1 A_AB).

(** Acceleration of a station of B in A's frame, expressed in A. *)
Definition calcBodyFixedPointAccelerationInBody (B : MobilizedBody)
    (s : State) (locationOnBodyB : Vec3) (inBodyA : MobilizedBody)
    : Result Vec3 :=
  do R_AB <- calcBodyRotationFromBody B s inBodyA ;;
  do w_AB <- calcBodyAngularVelocityInBody B s inBodyA ;;
  do A_AB <- calcBodySpatialAccelerationInBody B s inBodyA ;;
  let p_OB_P_A := Rotation_apply R_AB locationOnBodyB in
  let a_AP :=
    (sv1 A_AB + cross (sv0 A_AB) p_OB_P_A + cross w_AB (cross w_AB p_OB_P_A))%Vec3 in
  Ok a_AP.

(** Distance from a station of B to a station of A. *)
Definition calcPointToPointDistance (B : MobilizedBody) (s : State)
    (locationOnBodyB : Vec3) (bodyA : MobilizedBody) (locationOnBodyA : Vec3)
    : Result Real :=
  if isSameMobilizedBody B bodyA
  then Ok (norm (locationOnBodyA - locationOnBodyB))
  else
    do r_OG_PB <- locateBodyPointOnGround B s locationOnBodyB ;;
    do r_OG_PA <- locateBodyPointOnGround bodyA s locationOnBodyA ;;
    Ok (norm (r_OG_PA - r_OG_PB)).

Definition msg_calcMovingPointToPointDistance2ndTimeDerivative : string :=
  "MobilizedBody::calcMovingPointToPointDistance2ndTimeDerivative() is not yet implemented -- any volunteers?".

Definition calcMovingPointToPointDistance2ndTimeDerivative (B : MobilizedBody)
    (s : State) (locationOnBodyB velocityOnBodyB accelerationOnBodyB : Vec3)
    (bodyA : MobilizedBody)
    (locationOnBodyA velocityOnBodyA accelerationOnBodyA : Vec3) : Result Real :=
  do _ <- SimTK_ASSERT_ALWAYS (negb (literal_as_bool unimplemented_method))
            unimplemented_method
            msg_calcMovingPointToPointDistance2ndTimeDerivative ;;
  Ok NaN.

(** [getMyPartU(s,mobilityForces)] of a one-mobility mobilizer (Pin,
    Slider): the entry of its slot.  Modelled from the spec: [getMyPartU]
    and [updMyPartU] are declared only; they select the mobilizer's part
    of a u-like vector. *)
Definition getMyPartU1 (B : MobilizedBody) (s : State) (ulike : list Real)
    : Result Real :=
  do slot <- updOneFromUPartition B s 0%Z ulike ;;
  match ulike !! slot with
  | Some x => Ok x
  | None => Throw IndexOutOfRange
  end.

(** [return getMyPartU(s,mobilityForces);] *)
Definition Pin_getAppliedPinTorque (B : MobilizedBody) (s : State)
    (mobilityForces : list Real) : Result Real :=
  getMyPartU1 B s mobilityForces.

(** [Slider::applyForce]: [updMyPartU(s,mobilityForces) += force;] *)
Definition Slider_applyForce (B : MobilizedBody) (s : State) (force : Real)
    (mobilityForces : list Real) : Result (list Real) :=
  do slot <- updOneFromUPartition B s 0%Z mobilityForces ;;
  addInto mobilityForces slot force.

(** [Slider::getAppliedForce]. *)
Definition Slider_getAppliedForce (B : MobilizedBody) (s : State)
    (mobilityForces : list Real) : Result Real :=
  getMyPartU1 B s mobilityForces.

Definition SpatialVec_finite (V : SpatialVec) : Prop :=
  Vec3_finite (sv0 V) /\ Vec3_finite (sv1 V).

Definition Transform_finite (X : Transform) : Prop :=
  Vec3_finite (row0 (R_ X)) /\ Vec3_finite (row1 (R_ X)) /\
  Vec3_finite (row2 (R_ X)) /\ Vec3_finite (T_ X).

(* ===================================================================== *)
(** ** Mass properties *)
(* ===================================================================== *)

(** Modelled from the spec: [Inertia] and [MassProperties] of the math
    library: a symmetric inertia matrix, and mass, mass center and inertia
    of a body. *)
Record Inertia : Type := mkInertia
  { Ixx : Real; Iyy : Real; Izz : Real; Ixy : Real; Ixz : Real; Iyz : Real }.

Record MassProperties : Type := mkMassProperties
  { getMass : Real; getMassCenter : Vec3; getInertia : Inertia }.

Section MassPropertiesOperators.

(** [getBodyMassProperties] is declared only and reads the State cache;
    [MassProperties::reexpress] belongs to the math library.  Both are
    taken as given. *)
Variable getBodyMassProperties : MobilizedBody -> State -> Result MassProperties.
Variable MassProperties_reexpress : MassProperties -> Rotation -> MassProperties.

(** The mass properties of B expressed in A. *)
Definition calcBodyMassPropertiesInBody (B : MobilizedBody) (s : State)
    (inBodyA : MobilizedBody) : Result MassProperties :=
  do mprops <- getBodyMassProperties B s ;;
  if isSameMobilizedBody B inBodyA then Ok mprops
  else
    do R_GB <- getBodyRotation B s ;;
    let R_BG := Rotation_transpose R_GB in
    do R_BA <- (if negb (isGround inBodyA)
                then do R_GA <- getBodyRotation inBodyA s ;;
                     Ok (Rotation_mul R_BG R_GA)
                else Ok R_BG) ;;
    Ok (MassProperties_reexpress mprops R_BA).

End MassPropertiesOperators.

(* ===================================================================== *)
(** ** The Planar mobilizer *)
(* ===================================================================== *)

(** [Vec2] of the math library. *)
Record Vec2 : Type := mkVec2 { w0 : Real; w1 : Real }.

(** [void setAngle(State& s, Real a) {setOneQ(s,0,a);}] *)
Definition Planar_setAngle (B : MobilizedBody) (s : State) (a : Real)
    : Result State :=
  setOneQ B s 0%Z a.

(** [setOneQ(s,1,r[0]); setOneQ(s,2,r[1]);] *)
Definition Planar_setTranslation (B : MobilizedBody) (s : State) (r : Vec2)
    : Result State :=
  do s1 <- setOneQ B s 1%Z (w0 r) ;;
  setOneQ B s1 2%Z (w1 r).

(** Modelled from the spec: [getOneQ] is declared only; it returns "one of
    the generalized coordinates q from this mobilizer's partition",
    [which] "numbering from zero to getNumQ()-1". *)
Definition getOneQ (B : MobilizedBody) (s : State) (which : Z) : Result Real :=
  do n <- getNumQ B s ;;
  if ((0 <=? which)%Z && (which <? Z.of_nat n)%Z)%bool then
    match qVector s !! (qStart (partition s (mobilizedBodyIndex B))
                        + Z.to_nat which)%nat with
    | Some x => Ok x
    | None => Throw IndexOutOfRange
    end
  else Throw IndexOutOfRange.

(* ===================================================================== *)
(** ** Constraint::calcAccelerationErrorFromUDot *)
(* ===================================================================== *)

(** What a call guarded by the C [assert] does: it returns, or the
    program is aborted. *)
Inductive Outcome (A : Type) : Type :=
  | Returns (a : A)
  | Aborts (what : string).
Arguments Returns {A} a.
Arguments Aborts {A} what.

(** [assert(cond)] of <cassert>: nothing when the build defines NDEBUG,
    otherwise the program is aborted when [cond] is false. *)
Definition cassert (NDEBUG cond : bool) (what : string) : Outcome unit :=
  if (NDEBUG || cond)%bool then Returns tt else Aborts what.

Definition msg_calcAccelerationErrorFromUDot : string :=
  "calcAccelerationErrorFromUDot: Not implemented yet".

(** [assert(!"calcAccelerationErrorFromUDot: Not implemented yet");
     return Vector();] *)
Definition calcAccelerationErrorFromUDot (NDEBUG : bool) (c : Constraint)
    (s : State) (udot : list Real) : Outcome (list Real) :=
  match cassert NDEBUG
          (negb (literal_as_bool msg_calcAccelerationErrorFromUDot))
          msg_calcAccelerationErrorFromUDot with
  | Returns _ => Returns []
  | Aborts what => Aborts what
  end.

(* ===================================================================== *)
(** ** A small system for examples *)
(* ===================================================================== *)

Module Example.

Definition ground : MobilizedBody := mkMobilizedBody 0.
Definition pendulum : MobilizedBody := mkMobilizedBody 1.
Definition slider : MobilizedBody := mkMobilizedBody 2.

Definition vec (a b c : R) : Vec3 := mkVec3 (Fin a) (Fin b) (Fin c).

(** A quarter turn about z. *)
Definition quarterTurn : Rotation :=
  mkRotation (vec 0 (-1) 0) (vec 1 0 0) (vec 0 0 1).

(** Ground has no coordinates; the pendulum (a pin) owns q[0] and u[0],
    the slider q[1] and u[1]. *)
Definition parts (b : nat) : Partition :=
  match b with
  | 1%nat => mkPartition 0 1 0 1
  | 2%nat => mkPartition 1 1 1 1
  | _ => mkPartition 0 0 0 0
  end.

Definition transforms (b : nat) : Transform :=
  match b with
  | 1%nat => mkTransform quarterTurn (vec 1 2 3)
  | 2%nat => mkTransform Rotation_identity (vec 1 2 3)
  | _ => Transform_identity
  end.

Definition velocities (b : nat) : SpatialVec :=
  match b with
  | 1%nat => mkSpatialVec (vec 0 0 1) (vec 0 0 0)
  | 2%nat => mkSpatialVec (vec 0 0 0) (vec 3 4 0)
  | _ => mkSpatialVec Vec3_zero Vec3_zero
  end.

Definition accelerations (b : nat) : SpatialVec :=
  match b with
  | 2%nat => mkSpatialVec (vec 0 0 0) (vec 5 0 2)
  | _ => mkSpatialVec Vec3_zero Vec3_zero
  end.

Definition stateAt (g : Stage) : State :=
  mkState g [Fin 0; Fin 0] [Fin 1; Fin 5] parts
          transforms velocities accelerations [Fin 7; Fin 8; Fin 9].

Definition system : System :=
  mkSystem (fun _ => transforms) (fun _ => velocities)
           (fun _ => accelerations) (fun _ => [Fin 7; Fin 8; Fin 9]).

(** A custom constraint with one holonomic, two nonholonomic and one
    acceleration-only equation.  Its force callbacks append the
    multipliers they are handed to the mobility forces. *)
Definition record (_ : State) (multipliers : list Real) (f : Forces) : Forces :=
  (fst f, snd f ++ multipliers).

Definition custom : Constraint :=
  mkConstraint 1 2 1
    (fun _ _ => Fin 10) (fun _ _ => Fin 11) (fun _ _ => Fin 12) record
    (fun _ _ => Fin 20) (fun _ _ => Fin 21) record
    (fun _ _ => Fin 30) record.

(** A constraint with three holonomic equations, as [Constraint::Ball]. *)
Definition ball : Constraint :=
  mkConstraint 3 0 0
    (fun _ _ => Fin 0) (fun _ _ => Fin 0) (fun _ _ => Fin 0) record
    (fun _ _ => Fin 0) (fun _ _ => Fin 0) record
    (fun _ _ => Fin 0) record.

Definition constraints : list Constraint := [ball; custom].

Definition constrainedState : State :=
  mkState Acceleration [Fin 0; Fin 0] [Fin 1; Fin 5] parts
          transforms velocities accelerations
          [Fin 1; Fin 2; Fin 3; Fin 4; Fin 5; Fin 6; Fin 7].

(** A planar mobilizer with three coordinates q[2..4] and three speeds. *)
Definition planar : MobilizedBody := mkMobilizedBody 3.

Definition planarParts (b : nat) : Partition :=
  match b with
  | 3%nat => mkPartition 2 3 2 3
  | _ => parts b
  end.

Definition planarState (g : Stage) : State :=
  mkState g [Fin 0; Fin 0; Fin 10; Fin 11; Fin 12]
          [Fin 1; Fin 5; Fin 0; Fin 0; Fin 0] planarParts
          transforms velocities accelerations [].

Definition massProperties (b : nat) : MassProperties :=
  mkMassProperties (Fin 2) (vec 0 1 0)
    (mkInertia (Fin 1) (Fin 1) (Fin 1) (Fin 0) (Fin 0) (Fin 0)).

(** Mass properties are an Instance-stage response. *)
Definition getBodyMassProperties (B : MobilizedBody) (s : State)
    : Result MassProperties :=
  do _ <- checkStage s Instance ;; Ok (massProperties (mobilizedBodyIndex B)).

End Example.

(* ===================================================================== *)
(** ** Lemmas on the value types *)
(* ===================================================================== *)

Lemma Real_add_comm (a b : Real) : (a + b)%Real = (b + a)%Real.
Proof.
  destruct a as [x|], b as [y|]; simpl; trivial.
  f_equal. apply Rplus_comm.
Qed.

Lemma Vec3_add_comm (a b : Vec3) : (a + b)%Vec3 = (b + a)%Vec3.
Proof.
  unfold Vec3_add.
  rewrite (Real_add_comm (v0 a)), (Real_add_comm (v1 a)), (Real_add_comm (v2 a)).
  reflexivity.
Qed.


Lemma Real_is_zero_pos (x : R) : 0 < x -> Real_is_zero (Fin x) = false.
Proof.
  intros H. simpl. destruct (Req_dec_T x 0) as [E|E]; [lra | reflexivity].
Qed.

Lemma Real_finite_inv (a : Real) : Real_finite a -> exists x, a = Fin x.
Proof. destruct a as [x|]; simpl; [eauto | contradiction]. Qed.

Lemma Vec3_finite_inv (v : Vec3) :
  Vec3_finite v -> exists x y z, v = mkVec3 (Fin x) (Fin y) (Fin z).
Proof.
  destruct v as [a b c]. intros (Ha & Hb & Hc). simpl in *.
  destruct (Real_finite_inv a Ha) as [x ->].
  destruct (Real_finite_inv b Hb) as [y ->].
  destruct (Real_finite_inv c Hc) as [z ->]. eauto.
Qed.



Lemma checkStage_ok (s : State) (g : Stage) :
  Stage_leb g (systemStage s) = true -> checkStage s g = Ok tt.
Proof. intros H. unfold checkStage. now rewrite H. Qed.

Lemma checkStage_fail (s : State) (g : Stage) :
  Stage_leb g (systemStage s) = false ->
  checkStage s g = Throw (StageViolation g (systemStage s)).
Proof. intros H. unfold checkStage. now rewrite H. Qed.

Lemma Stage_leb_trans (a b c : Stage) :
  Stage_leb a b = true -> Stage_leb b c = true -> Stage_leb a c = true.
Proof.
  unfold Stage_leb. rewrite !Nat.leb_le. lia.
Qed.

Lemma getBodyTransform_ok (B : MobilizedBody) (s : State) :
  Stage_leb Position (systemStage s) = true ->
  getBodyTransform B s = Ok (X_GB_cache s (mobilizedBodyIndex B)).
Proof.
  intros H. unfold getBodyTransform. now rewrite checkStage_ok.
Qed.

Lemma getBodyVelocity_ok (B : MobilizedBody) (s : State) :
  Stage_leb Velocity (systemStage s) = true ->
  getBodyVelocity B s = Ok (V_GB_cache s (mobilizedBodyIndex B)).
Proof.
  intros H. unfold getBodyVelocity. now rewrite checkStage_ok.
Qed.

Lemma getBodyAcceleration_ok (B : MobilizedBody) (s : State) :
  Stage_leb Acceleration (systemStage s) = true ->
  getBodyAcceleration B s = Ok (A_GB_cache s (mobilizedBodyIndex B)).
Proof.
  intros H. unfold getBodyAcceleration. now rewrite checkStage_ok.
Qed.

(* ===================================================================== *)
(** ** The moving-point operators *)
(* ===================================================================== *)

(** C8: for every input, each of calcBodyMovingPointVelocityInBody,
    calcBodyMovingPointAccelerationInBody and
    calcMovingPointToPointDistanceTimeDerivative throws the failed
    "unimplemented method" assertion; none of them returns a value, so
    the NaN after the assertion is never reached. *)
Theorem moving_point_operators_always_fail :
  (forall B s p v A,
      calcBodyMovingPointVelocityInBody B s p v A
      = Throw (Assert unimplemented_method msg_calcBodyMovingPointVelocityInBody)
      /\ forall r, calcBodyMovingPointVelocityInBody B s p v A <> Ok r) /\
  (forall B s p v a A,
      calcBodyMovingPointAccelerationInBody B s p v a A
      = Throw (Assert unimplemented_method msg_calcBodyMovingPointAccelerationInBody)
      /\ forall r, calcBodyMovingPointAccelerationInBody B s p v a A <> Ok r) /\
  (forall B s pB vB A pA vA,
      calcMovingPointToPointDistanceTimeDerivative B s pB vB A pA vA
      = Throw (Assert unimplemented_method
                 msg_calcMovingPointToPointDistanceTimeDerivative)
      /\ forall r,
           calcMovingPointToPointDistanceTimeDerivative B s pB vB A pA vA <> Ok r).
Proof.
  repeat split; intros; discriminate.
Qed.

(* ===================================================================== *)
(** ** Relative transform of two bodies *)
(* ===================================================================== *)

(** C6: on a Position-realized state, calcBodyTransformFromBody(s, A)
    returns the identity when A and B are the same body (this case on any
    state at all, realized or not), X_GB when A is Ground, the inverse of
    X_GA when B is Ground, and otherwise ~X_GA * X_GB. *)
Theorem calcBodyTransformFromBody_cases (B A : MobilizedBody) (s : State) :
  Stage_leb Position (systemStage s) = true ->
  let X_GB := X_GB_cache s (mobilizedBodyIndex B) in
  let X_GA := X_GB_cache s (mobilizedBodyIndex A) in
  (isSameMobilizedBody B A = true ->
     forall s0, calcBodyTransformFromBody B s0 A = Ok Transform_identity) /\
  (isSameMobilizedBody B A = false -> isGround A = true ->
     calcBodyTransformFromBody B s A = Ok X_GB) /\
  (isSameMobilizedBody B A = false -> isGround A = false -> isGround B = true ->
     calcBodyTransformFromBody B s A = Ok (Transform_invert X_GA)) /\
  (isSameMobilizedBody B A = false -> isGround A = false -> isGround B = false ->
     calcBodyTransformFromBody B s A
     = Ok (Transform_compose (Transform_invert X_GA) X_GB)).
Proof.
  intros Hs X_GB X_GA. unfold calcBodyTransformFromBody.
  repeat split.
  - intros -> s0. reflexivity.
  - intros -> ->. now apply getBodyTransform_ok.
  - intros -> -> ->. now rewrite getBodyTransform_ok.
  - intros -> -> ->. now rewrite !getBodyTransform_ok.
Qed.

Lemma calcBodyTransformFromBody_cases_witness :
  calcBodyTransformFromBody Example.pendulum (Example.stateAt Position)
    Example.slider
  = Ok (Transform_compose
          (Transform_invert (Example.transforms 2)) (Example.transforms 1)).
Proof.
  apply (calcBodyTransformFromBody_cases Example.pendulum Example.slider
           (Example.stateAt Position)); reflexivity.
Defined.

(* ===================================================================== *)
(** ** The batched point operators *)
(* ===================================================================== *)

Ltac unfold_point_operators :=
  unfold calcBodyFixedPointLocationAndVelocityInGround,
    calcBodyFixedPointLocationVelocityAndAccelerationInGround,
    locateBodyPointOnGround, calcBodyFixedPointVelocityInGround,
    calcBodyFixedPointAccelerationInGround, expressBodyVectorInGround,
    getBodyOriginLocation, getBodyRotation, getBodyAngularVelocity,
    getBodyOriginVelocity, getBodyAngularAcceleration,
    getBodyOriginAcceleration, getBodyTransform, getBodyVelocity,
    getBodyAcceleration, checkStage, Transform_apply.

Lemma location_and_velocity_split (B : MobilizedBody) (s : State) (p : Vec3) :
  calcBodyFixedPointLocationAndVelocityInGround B s p
  = (do l <- locateBodyPointOnGround B s p ;;
     do v <- calcBodyFixedPointVelocityInGround B s p ;;
     Ok (l, v)).
Proof.
  unfold_point_operators.
  destruct s as [g q u parts X V A m]; simpl.
  destruct g; simpl; try reflexivity; now rewrite (Vec3_add_comm (T_ _)).
Qed.

Lemma location_velocity_and_acceleration_split (B : MobilizedBody) (s : State)
    (p : Vec3) :
  calcBodyFixedPointLocationVelocityAndAccelerationInGround B s p
  = (do l <- locateBodyPointOnGround B s p ;;
     do v <- calcBodyFixedPointVelocityInGround B s p ;;
     do a <- calcBodyFixedPointAccelerationInGround B s p ;;
     Ok (l, v, a)).
Proof.
  unfold_point_operators.
  destruct s as [g q u parts X V A m]; simpl.
  destruct g; simpl; try reflexivity; now rewrite (Vec3_add_comm (T_ _)).
Qed.

(** C9: calcBodyFixedPointLocationAndVelocityInGround returns what
    locateBodyPointOnGround and calcBodyFixedPointVelocityInGround return
    one after the other, and
    calcBodyFixedPointLocationVelocityAndAccelerationInGround what these two
    and calcBodyFixedPointAccelerationInGround return; on a state not
    realized far enough both sides fail with the same StageViolation. *)
Theorem batched_point_operators_agree (B : MobilizedBody) (s : State) (p : Vec3) :
  calcBodyFixedPointLocationAndVelocityInGround B s p
  = (do l <- locateBodyPointOnGround B s p ;;
     do v <- calcBodyFixedPointVelocityInGround B s p ;;
     Ok (l, v))
  /\
  calcBodyFixedPointLocationVelocityAndAccelerationInGround B s p
  = (do l <- locateBodyPointOnGround B s p ;;
     do v <- calcBodyFixedPointVelocityInGround B s p ;;
     do a <- calcBodyFixedPointAccelerationInGround B s p ;;
     Ok (l, v, a)).
Proof.
  split.
  - apply location_and_velocity_split.
  - apply location_velocity_and_acceleration_split.
Qed.

Example batched_point_operators_pendulum :
  calcBodyFixedPointLocationAndVelocityInGround Example.pendulum
    (Example.stateAt Velocity) (Example.vec 1 0 0)
  = Ok (Example.vec (1 + (0 * 1 + -1 * 0 + 0 * 0))
                    (2 + (1 * 1 + 0 * 0 + 0 * 0))
                    (3 + (0 * 1 + 0 * 0 + 1 * 0)),
        Example.vec
          (0 + (0 * (0 * 1 + 0 * 0 + 1 * 0) - 1 * (1 * 1 + 0 * 0 + 0 * 0)))
          (0 + (1 * (0 * 1 + -1 * 0 + 0 * 0) - 0 * (0 * 1 + 0 * 0 + 1 * 0)))
          (0 + (0 * (1 * 1 + 0 * 0 + 0 * 0) - 0 * (0 * 1 + -1 * 0 + 0 * 0)))).
Proof. reflexivity. Qed.

(* ===================================================================== *)
(** ** Mobility forces *)
(* ===================================================================== *)

Lemma addInto_frame (v : list Real) (slot : nat) (f : Real) :
  (slot < length v)%nat ->
  exists old v',
    v !! slot = Some old /\ addInto v slot f = Ok v' /\
    v' !! slot = Some (old + f)%Real /\
    (forall j, j <> slot -> v' !! j = v !! j) /\
    length v' = length v.
Proof.
  intros Hlt. destruct (lookup_lt_is_Some_2 v slot Hlt) as [old Hold].
  exists old, (<[slot := (old + f)%Real]> v). unfold addInto. rewrite Hold.
  repeat split.
  - now apply list_lookup_insert_eq.
  - intros j Hj. now apply list_lookup_insert_ne.
  - apply length_insert.
Qed.

Lemma updOneFromUPartition_ok (B : MobilizedBody) (s : State) (which : Z)
    (ulike : list Real) :
  Stage_leb Model (systemStage s) = true ->
  (0 <= which < Z.of_nat (nu (partition s (mobilizedBodyIndex B))))%Z ->
  length ulike = length (uVector s) ->
  updOneFromUPartition B s which ulike
  = Ok (uStart (partition s (mobilizedBodyIndex B)) + Z.to_nat which)%nat.
Proof.
  intros Hs Hw Hlen. unfold updOneFromUPartition, getNumU.
  rewrite checkStage_ok by exact Hs. simpl.
  rewrite Hlen, Nat.eqb_refl. simpl.
  destruct (Z.leb_spec 0 which); [| lia].
  destruct (Z.ltb_spec which (Z.of_nat (nu (partition s (mobilizedBodyIndex B)))));
    [reflexivity | lia].
Qed.

(** C10: for a mobility [which] of this mobilizer and a u-like vector,
    applyOneMobilityForce adds f to the slot of that mobility (the old
    value plus f, not f alone) and leaves every other entry and the length
    unchanged; Pin::applyPinTorque does the same with the pin's one slot. *)
Theorem applyOneMobilityForce_adds_to_one_slot (B : MobilizedBody) (s : State)
    (which : Z) (f : Real) (mobilityForces : list Real) :
  let part := partition s (mobilizedBodyIndex B) in
  Stage_leb Model (systemStage s) = true ->
  (0 <= which < Z.of_nat (nu part))%Z ->
  length mobilityForces = length (uVector s) ->
  (uStart part + nu part <= length (uVector s))%nat ->
  (exists old forces',
      mobilityForces !! (uStart part + Z.to_nat which)%nat = Some old /\
      applyOneMobilityForce B s which f mobilityForces = Ok forces' /\
      forces' !! (uStart part + Z.to_nat which)%nat = Some (old + f)%Real /\
      (forall j, j <> (uStart part + Z.to_nat which)%nat ->
                 forces' !! j = mobilityForces !! j) /\
      length forces' = length mobilityForces) /\
  (nu part = 1%nat ->
   exists old forces',
      mobilityForces !! uStart part = Some old /\
      Pin_applyPinTorque B s f mobilityForces = Ok forces' /\
      forces' !! uStart part = Some (old + f)%Real /\
      (forall j, j <> uStart part -> forces' !! j = mobilityForces !! j) /\
      length forces' = length mobilityForces).
Proof.
  intros part Hs Hw Hlen Hpart. split.
  - unfold applyOneMobilityForce.
    rewrite updOneFromUPartition_ok by assumption. simpl.
    apply addInto_frame. fold part. lia.
  - intros Hpin. unfold Pin_applyPinTorque, Pin_updMyPartU.
    rewrite updOneFromUPartition_ok by (try assumption; fold part; lia).
    simpl. fold part. rewrite Nat.add_0_r.
    apply addInto_frame. lia.
Qed.

Lemma applyOneMobilityForce_adds_to_one_slot_witness :
  exists old forces',
    [Fin 10; Fin 20] !! 1%nat = Some old /\
    applyOneMobilityForce Example.slider (Example.stateAt Model) 0 (Fin 2)
      [Fin 10; Fin 20] = Ok forces' /\
    forces' !! 1%nat = Some (old + Fin 2)%Real /\
    (forall j, j <> 1%nat -> forces' !! j = [Fin 10; Fin 20] !! j) /\
    length forces' = 2%nat.
Proof.
  refine (proj1 (applyOneMobilityForce_adds_to_one_slot Example.slider
                   (Example.stateAt Model) 0 (Fin 2) [Fin 10; Fin 20]
                   _ _ _ _)).
  - reflexivity.
  - simpl. lia.
  - reflexivity.
  - simpl. lia.
Defined.

Example applyOneMobilityForce_slider :
  applyOneMobilityForce Example.slider (Example.stateAt Model) 0 (Fin 2)
    [Fin 10; Fin 20] = Ok [Fin 10; Fin (20 + 2)].
Proof. reflexivity. Qed.

Example applyPinTorque_pendulum :
  Pin_applyPinTorque Example.pendulum (Example.stateAt Model) (Fin 2)
    [Fin 10; Fin 20] = Ok [Fin (10 + 2); Fin 20].
Proof. reflexivity. Qed.

Example applyOneMobilityForce_bad_index :
  applyOneMobilityForce Example.slider (Example.stateAt Model) 1 (Fin 2)
    [Fin 10; Fin 20] = Throw IndexOutOfRange.
Proof. reflexivity. Qed.

(* ===================================================================== *)
(** ** Stage discipline of the Position responses *)
(* ===================================================================== *)

Lemma invalidate_Position_stage (s : State) :
  Stage_leb Position (systemStage s) = true ->
  systemStage (invalidate s Position) = Time.
Proof.
  unfold invalidate. simpl. destruct (systemStage s); simpl; intros H;
    try discriminate; reflexivity.
Qed.

Lemma setOneQ_stage (B : MobilizedBody) (s s' : State) (which : Z) (v : Real) :
  Stage_leb Position (systemStage s) = true ->
  setOneQ B s which v = Ok s' -> systemStage s' = Time.
Proof.
  intros Hs. unfold setOneQ, getNumQ.
  rewrite checkStage_ok by (apply (Stage_leb_trans Model Position); trivial).
  simpl. destruct (_ && _)%bool; [| discriminate].
  intros [= <-]. now apply invalidate_Position_stage.
Qed.

Lemma setQVector_stage (B : MobilizedBody) (s s' : State) (v : list Real) :
  Stage_leb Position (systemStage s) = true ->
  setQVector B s v = Ok s' -> systemStage s' = Time.
Proof.
  intros Hs. unfold setQVector, getNumQ.
  rewrite checkStage_ok by (apply (Stage_leb_trans Model Position); trivial).
  simpl. destruct (_ =? _)%nat; [| discriminate].
  intros [= <-]. now apply invalidate_Position_stage.
Qed.

Lemma realize_Position_reaches (sys : System) (s s' : State) :
  realize sys s Position = Ok s' ->
  Stage_leb Position (systemStage s') = true.
Proof.
  unfold realize.
  destruct (Stage_leb Position (systemStage s)) eqn:E.
  - now intros [= <-].
  - destruct (_ =? _)%nat; [| discriminate]. now intros [= <-].
Qed.

Lemma realize_Position_from_Time (sys : System) (s : State) :
  systemStage s = Time ->
  realize sys s Position = Ok (realizeStage sys s Position).
Proof. intros H. unfold realize. now rewrite H. Qed.

(** C2: getBodyTransform fails with StageViolation on a state not realized
    to Position; it returns the cache entry on the state that
    realize(s, Position) returns; and on the state left by a setOneQ or
    setQVector on a Position-realized state it fails with StageViolation
    again, until realize(.., Position) has recomputed the entry. *)
Theorem getBodyTransform_stage_discipline (sys : System) (B : MobilizedBody) :
  (forall s,
      Stage_leb Position (systemStage s) = false ->
      getBodyTransform B s = Throw (StageViolation Position (systemStage s))) /\
  (forall s s',
      realize sys s Position = Ok s' ->
      getBodyTransform B s' = Ok (X_GB_cache s' (mobilizedBodyIndex B))) /\
  (forall s s' Bq,
      Stage_leb Position (systemStage s) = true ->
      (exists which v, setOneQ Bq s which v = Ok s') \/
      (exists v, setQVector Bq s v = Ok s') ->
      getBodyTransform B s' = Throw (StageViolation Position Time) /\
      exists s'',
        realize sys s' Position = Ok s'' /\
        getBodyTransform B s''
        = Ok (realizePosition sys s' (mobilizedBodyIndex B))).
Proof.
  split; [| split].
  - intros s Hs. unfold getBodyTransform. now rewrite checkStage_fail.
  - intros s s' Hr. apply getBodyTransform_ok.
    now apply (realize_Position_reaches sys s).
  - intros s s' Bq Hs Hset.
    assert (systemStage s' = Time) as E.
    { destruct Hset as [(which & v & Hset) | (v & Hset)].
      - now apply (setOneQ_stage Bq s s' which v).
      - now apply (setQVector_stage Bq s s' v). }
    split.
    + unfold getBodyTransform, checkStage. now rewrite E.
    + exists (realizeStage sys s' Position). split.
      * now apply realize_Position_from_Time.
      * reflexivity.
Qed.

Lemma getBodyTransform_stage_discipline_witness :
  getBodyTransform Example.pendulum (Example.stateAt Time)
  = Throw (StageViolation Position Time)
  /\ getBodyTransform Example.pendulum (Example.stateAt Position)
     = Ok (Example.transforms 1)
  /\ getBodyTransform Example.pendulum
       (invalidate
          (setQ (Example.stateAt Position) [Fin 0; Fin 4]) Position)
     = Throw (StageViolation Position Time).
Proof.
  destruct (getBodyTransform_stage_discipline Example.system Example.pendulum)
    as (Hbefore & Hafter & Hset).
  split; [| split].
  - apply (Hbefore (Example.stateAt Time)). reflexivity.
  - apply (Hafter (Example.stateAt Time) (Example.stateAt Position)).
    reflexivity.
  - apply (Hset (Example.stateAt Position) _ Example.slider).
    + reflexivity.
    + left. exists 0%Z, (Fin 4). reflexivity.
Defined.

Example setQVector_invalidates :
  setQVector Example.slider (Example.stateAt Velocity) [Fin 4]
  = Ok (mkState Time [Fin 0; Fin 4] [Fin 1; Fin 5] Example.parts
          Example.transforms Example.velocities Example.accelerations
          [Fin 7; Fin 8; Fin 9]).
Proof. reflexivity. Qed.

Example setQVector_wrong_length :
  setQVector Example.slider (Example.stateAt Velocity) [Fin 4; Fin 5]
  = Throw DimensionMismatch.
Proof. reflexivity. Qed.

(** A stage cannot be skipped: Position is not reachable from Model. *)
Example realize_skipping :
  realize Example.system (Example.stateAt Model) Position
  = Throw (StageViolation Time Model).
Proof. reflexivity. Qed.

(* ===================================================================== *)
(** ** Locating a point on Ground *)
(* ===================================================================== *)

Example locateBodyPointOnGround_pendulum :
  locateBodyPointOnGround Example.pendulum (Example.stateAt Position)
    (Example.vec 4 5 6)
  = Ok (Example.vec (0 * 4 + -1 * 5 + 0 * 6 + 1)
                    (1 * 4 + 0 * 5 + 0 * 6 + 2)
                    (0 * 4 + 0 * 5 + 1 * 6 + 3)).
Proof. reflexivity. Qed.

Example locateBodyPointOnGround_unrealized :
  locateBodyPointOnGround Example.pendulum (Example.stateAt Time)
    (Example.vec 4 5 6)
  = Throw (StageViolation Position Time).
Proof. reflexivity. Qed.

(* ===================================================================== *)
(** ** Distance between two stations and its time derivatives *)
(* ===================================================================== *)






Lemma norm_of_reals (a b c n : R) :
  0 <= n -> a * a + b * b + c * c = n * n ->
  norm (mkVec3 (Fin a) (Fin b) (Fin c)) = Fin n.
Proof.
  intros Hn E. unfold norm, dot. simpl. rewrite E.
  destruct (Rlt_dec (n * n) 0); [nra |].
  f_equal. now apply sqrt_square.
Qed.

Lemma distance_rate_unfold (B A : MobilizedBody) (s : State) (pB pA : Vec3)
    (rB vB rA vA : Vec3) :
  isSameMobilizedBody B A = false ->
  calcBodyFixedPointLocationAndVelocityInGround B s pB = Ok (rB, vB) ->
  calcBodyFixedPointLocationAndVelocityInGround A s pA = Ok (rA, vA) ->
  calcFixedPointToPointDistanceTimeDerivative B s pB A pA
  = if Real_is_zero (norm (rA - rB))
    then Ok (norm (vA - vB))
    else Ok (dot (vA - vB)%Vec3 (Vec3_div (rA - rB) (norm (rA - rB)))).
Proof.
  intros Hdiff HB HA.
  unfold calcFixedPointToPointDistanceTimeDerivative.
  rewrite Hdiff, HB, HA. reflexivity.
Qed.



(** Coincident stations moving apart at (3,4,0): the distance grows at
    rate 5. *)
Example distance_rate_coincident :
  calcFixedPointToPointDistanceTimeDerivative Example.pendulum
    (Example.stateAt Velocity) Vec3_zero Example.slider Vec3_zero
  = Ok (Fin 5).
Proof.
  erewrite distance_rate_unfold; [| reflexivity | reflexivity | reflexivity].
  match goal with
  | |- context [Real_is_zero ?d] =>
      assert (d = Fin 0) as E by (apply norm_of_reals; lra)
  end.
  rewrite E. simpl. destruct (Req_dec_T 0 0) as [_|N]; [| contradiction].
  f_equal. apply norm_of_reals; lra.
Qed.

(** Stations one unit apart along x, the slider moving at (3,4,0): only
    the x component of the velocity changes the distance. *)
Example distance_rate_separated :
  calcFixedPointToPointDistanceTimeDerivative Example.pendulum
    (Example.stateAt Velocity) Vec3_zero Example.slider (Example.vec 1 0 0)
  = Ok (Fin 3).
Proof.
  erewrite distance_rate_unfold; [| reflexivity | reflexivity | reflexivity].
  match goal with
  | |- context [Real_is_zero ?d] =>
      assert (d = Fin 1) as E by (apply norm_of_reals; lra)
  end.
  rewrite E, Real_is_zero_pos by lra.
  unfold Vec3_div, dot. cbn.
  destruct (Req_dec_T 1 0) as [N|_]; [lra |].
  cbn. do 2 f_equal. lra.
Qed.

Lemma distance_rate2_unfold (B A : MobilizedBody) (s : State) (pB pA : Vec3)
    (rB vB aB rA vA aA : Vec3) :
  isSameMobilizedBody B A = false ->
  calcBodyFixedPointLocationVelocityAndAccelerationInGround B s pB
  = Ok (rB, vB, aB) ->
  calcBodyFixedPointLocationVelocityAndAccelerationInGround A s pA
  = Ok (rA, vA, aA) ->
  let r := (rA - rB)%Vec3 in
  let v := (vA - vB)%Vec3 in
  let a := (aA - aB)%Vec3 in
  let d := norm r in
  let u := Vec3_div r d in
  calcFixedPointToPointDistance2ndTimeDerivative B s pB A pA
  = if Real_is_zero d
    then if Real_is_zero (norm v)
         then Ok (norm a)
         else Ok (dot a (Vec3_div v (norm v)))
    else Ok (dot a u + dot (v - Vec3_scale (dot v u) u)%Vec3 v / d)%Real.
Proof.
  intros Hdiff HB HA r v a d u.
  unfold calcFixedPointToPointDistance2ndTimeDerivative.
  rewrite Hdiff, HB, HA. reflexivity.
Qed.



Ltac norm_is n :=
  match goal with
  | |- context [Real_is_zero (norm ?w)] =>
      let E := fresh "E" in
      assert (norm w = Fin n) as E by (apply norm_of_reals; lra);
      rewrite !E
  end.

Ltac decide_zero :=
  match goal with
  | |- context [Req_dec_T ?x 0] => destruct (Req_dec_T x 0); [try lra | try lra]
  end.

(** Coincident stations, relative velocity (3,4,0), relative acceleration
    (5,0,2): the acceleration along the velocity, 5*3/5. *)
Example distance_rate2_coincident_moving :
  calcFixedPointToPointDistance2ndTimeDerivative Example.pendulum
    (Example.stateAt Acceleration) Vec3_zero Example.slider Vec3_zero
  = Ok (Fin 3).
Proof.
  erewrite distance_rate2_unfold; [| reflexivity | reflexivity | reflexivity].
  cbv zeta. norm_is 0. simpl Real_is_zero at 1. decide_zero.
  norm_is 5. rewrite Real_is_zero_pos by lra.
  unfold Vec3_div, dot. cbn. decide_zero.
  cbn. do 2 f_equal. lra.
Qed.

(** Coincident stations at relative rest: the magnitude of the relative
    acceleration, here 0, and not the NaN of 0/0. *)
Example distance_rate2_coincident_at_rest :
  calcFixedPointToPointDistance2ndTimeDerivative Example.pendulum
    (Example.stateAt Acceleration) Vec3_zero Example.ground (Example.vec 1 2 3)
  = Ok (Fin 0).
Proof.
  erewrite distance_rate2_unfold; [| reflexivity | reflexivity | reflexivity].
  cbv zeta. norm_is 0. simpl Real_is_zero at 1. decide_zero.
  norm_is 0. simpl Real_is_zero at 1. decide_zero.
  f_equal. apply norm_of_reals; lra.
Qed.

(** Stations one unit apart along x: 5 + (0,4,0).(3,4,0)/1. *)
Example distance_rate2_separated :
  calcFixedPointToPointDistance2ndTimeDerivative Example.pendulum
    (Example.stateAt Acceleration) Vec3_zero Example.slider (Example.vec 1 0 0)
  = Ok (Fin 21).
Proof.
  erewrite distance_rate2_unfold; [| reflexivity | reflexivity | reflexivity].
  cbv zeta. norm_is 1. rewrite Real_is_zero_pos by lra.
  unfold Vec3_div, Vec3_scale, Vec3_sub, dot, Real_div. cbn.
  decide_zero. cbn. do 2 f_equal. lra.
Qed.

(* ===================================================================== *)
(** ** Layout of the constraint vectors *)
(* ===================================================================== *)

Lemma length_fillBuffer (n : nat) (f : nat -> Real) : length (fillBuffer n f) = n.
Proof. unfold fillBuffer. now rewrite length_map, length_seq. Qed.

Lemma totalEquations_app (l1 l2 : list Constraint) :
  totalEquations (l1 ++ l2) = (totalEquations l1 + totalEquations l2)%nat.
Proof.
  unfold totalEquations. induction l1 as [| c l1 IH]; simpl; [reflexivity |].
  rewrite IH. lia.
Qed.

(** The segment of constraint [i] lies inside the multipliers of all the
    constraints. *)
Lemma multiplier_segment_in_range (cs : list Constraint) (i : nat) (c : Constraint) :
  cs !! i = Some c ->
  (multiplierStart cs i + numEquations c <= totalEquations cs)%nat.
Proof.
  intros Hc. rewrite <- (take_drop_middle cs i c Hc) at 2.
  rewrite totalEquations_app. unfold multiplierStart.
  change (foldr (fun c n => (numEquations c + n)%nat) 0%nat (take i cs))
    with (totalEquations (take i cs)).
  change (totalEquations (c :: drop (S i) cs))
    with (numEquations c + totalEquations (drop (S i) cs))%nat.
  lia.
Qed.

(** C7: for a constraint with equation counts (mp, mv, ma), on a state
    realized to Acceleration that holds the multipliers of all constraints:
    getPositionError has mp entries; getVelocityError has mp+mv entries,
    the mp holonomic-derivative errors first and the mv nonholonomic errors
    after them; getAccelerationError and getMultipliers have mp+mv+ma
    entries; and calcConstraintForcesFromMultipliers takes mp+mv+ma
    multipliers, of which the first mp go to the holonomic, the next mv to
    the nonholonomic and the last ma to the acceleration-only equations,
    and it refuses any other length. *)
Theorem constraint_vector_layout (cs : list Constraint) (i : nat)
    (c : Constraint) (s : State) :
  cs !! i = Some c ->
  Stage_leb Acceleration (systemStage s) = true ->
  length (multiplierCache s) = totalEquations cs ->
  (exists perr, getPositionError c s = Ok perr /\ length perr = mp c) /\
  (exists verr,
      getVelocityError c s = Ok verr /\ length verr = (mp c + mv c)%nat /\
      take (mp c) verr = fillBuffer (mp c) (calcPositionDotErrors c s) /\
      drop (mp c) verr = fillBuffer (mv c) (calcVelocityErrors c s)) /\
  (exists aerr,
      getAccelerationError c s = Ok aerr /\
      length aerr = (mp c + mv c + ma c)%nat) /\
  (exists lambda,
      getMultipliers cs i s = Ok lambda /\
      length lambda = (mp c + mv c + ma c)%nat) /\
  (forall lp lv la forces,
      length lp = mp c -> length lv = mv c -> length la = ma c ->
      calcConstraintForcesFromMultipliers c s (lp ++ lv ++ la) forces
      = Ok (let f1 := if (0 <? mp c)%nat
                      then applyPositionConstraintForces c s lp forces
                      else forces in
            let f2 := if (0 <? mv c)%nat
                      then applyVelocityConstraintForces c s lv f1
                      else f1 in
            if (0 <? ma c)%nat
            then applyAccelerationConstraintForces c s la f2
            else f2)) /\
  (forall lambda forces,
      length lambda <> (mp c + mv c + ma c)%nat ->
      calcConstraintForcesFromMultipliers c s lambda forces
      = Throw DimensionMismatch).
Proof.
  intros Hc Hs Hlen.
  assert (Stage_leb Velocity (systemStage s) = true) as Hv
    by (apply (Stage_leb_trans Velocity Acceleration); trivial).
  assert (Stage_leb Position (systemStage s) = true) as Hp
    by (apply (Stage_leb_trans Position Velocity); trivial).
  split; [| split; [| split; [| split; [| split]]]].
  - unfold getPositionError. rewrite checkStage_ok by exact Hp. simpl.
    eexists. split; [reflexivity | apply length_fillBuffer].
  - unfold getVelocityError. rewrite checkStage_ok by exact Hv. simpl.
    eexists. split; [reflexivity |]. split; [| split].
    + now rewrite length_app, !length_fillBuffer.
    + rewrite take_app_length'; [reflexivity |].
      symmetry. apply length_fillBuffer.
    + rewrite drop_app_length'; [reflexivity |].
      symmetry. apply length_fillBuffer.
  - unfold getAccelerationError. rewrite checkStage_ok by exact Hs. simpl.
    eexists. split; [reflexivity |].
    rewrite !length_app, !length_fillBuffer. lia.
  - unfold getMultipliers. rewrite checkStage_ok by exact Hs. simpl.
    rewrite Hc. eexists. split; [reflexivity |].
    rewrite length_take, length_drop, Hlen.
    pose proof (multiplier_segment_in_range cs i c Hc) as Hin.
    unfold numEquations in *. lia.
  - intros lp lv la forces Hlp Hlv Hla.
    unfold calcConstraintForcesFromMultipliers.
    rewrite checkStage_ok by exact Hp. simpl.
    replace (length (lp ++ lv ++ la) =? numEquations c)%nat with true
      by (symmetry; apply Nat.eqb_eq; rewrite !length_app;
          unfold numEquations; lia).
    simpl.
    symmetry in Hlp, Hlv.
    rewrite (take_app_length' lp (lv ++ la) (mp c) Hlp).
    rewrite (drop_app_length' lp (lv ++ la) (mp c) Hlp).
    rewrite (take_app_length' lv la (mv c) Hlv).
    rewrite app_assoc, drop_app_length'
      by (rewrite length_app; lia).
    reflexivity.
  - intros lambda forces Hbad.
    unfold calcConstraintForcesFromMultipliers.
    rewrite checkStage_ok by exact Hp. simpl.
    replace (length lambda =? numEquations c)%nat with false
      by (symmetry; apply Nat.eqb_neq; unfold numEquations; lia).
    reflexivity.
Qed.

Lemma constraint_vector_layout_witness :
  (exists verr,
      getVelocityError Example.custom Example.constrainedState = Ok verr /\
      length verr = 3%nat /\
      take 1 verr = [Fin 11] /\ drop 1 verr = [Fin 20; Fin 20]) /\
  (exists lambda,
      getMultipliers Example.constraints 1 Example.constrainedState = Ok lambda /\
      length lambda = 4%nat).
Proof.
  destruct (constraint_vector_layout Example.constraints 1 Example.custom
              Example.constrainedState)
    as (_ & Hverr & _ & Hlambda & _); [reflexivity | reflexivity | reflexivity |].
  split; [exact Hverr | exact Hlambda].
Defined.

Example getVelocityError_custom :
  getVelocityError Example.custom Example.constrainedState
  = Ok [Fin 11; Fin 20; Fin 20].
Proof. reflexivity. Qed.

(** The second constraint reads the segment after the three multipliers of
    the first. *)
Example getMultipliers_custom :
  getMultipliers Example.constraints 1 Example.constrainedState
  = Ok [Fin 4; Fin 5; Fin 6; Fin 7].
Proof. reflexivity. Qed.

Example calcConstraintForcesFromMultipliers_custom :
  calcConstraintForcesFromMultipliers Example.custom Example.constrainedState
    [Fin 4; Fin 5; Fin 6; Fin 7] ([], [])
  = Ok ([], [Fin 4; Fin 5; Fin 6; Fin 7]).
Proof. reflexivity. Qed.

Example calcConstraintForcesFromMultipliers_short :
  calcConstraintForcesFromMultipliers Example.custom Example.constrainedState
    [Fin 4; Fin 5; Fin 6] ([], [])
  = Throw DimensionMismatch.
Proof. reflexivity. Qed.

(* ===================================================================== *)
(** ** Re-expressing vectors and stations between bodies *)
(* ===================================================================== *)

Lemma getBodyRotation_ok (B : MobilizedBody) (s : State) :
  Stage_leb Position (systemStage s) = true ->
  getBodyRotation B s = Ok (R_ (X_GB_cache s (mobilizedBodyIndex B))).
Proof.
  intros Hs. unfold getBodyRotation. now rewrite getBodyTransform_ok.
Qed.

(** Name the real entries of every finite vector in the context. *)
Ltac finite_entries :=
  repeat match goal with
  | H : _ /\ _ |- _ => destruct H
  | H : Transform_finite ?X |- _ =>
      let H0 := fresh in let H1 := fresh in let H2 := fresh in
      let H3 := fresh in
      destruct H as (H0 & H1 & H2 & H3)
  | H : SpatialVec_finite ?V |- _ =>
      let H0 := fresh in let H1 := fresh in destruct H as (H0 & H1)
  | H : Vec3_finite (mkVec3 _ _ _) |- _ => clear H
  | H : Vec3_finite ?v |- _ =>
      let x := fresh "x" in let y := fresh "y" in let z := fresh "z" in
      let E := fresh "E" in
      destruct (Vec3_finite_inv v H) as (x & y & z & E);
      clear H; try rewrite !E in *; try subst v
  end.

(** X4: calcBodyRotationFromBody returns the rotation part of what
    calcBodyTransformFromBody returns, in each of its four cases, and
    fails exactly when that one fails. *)
Theorem calcBodyRotationFromBody_rotation_part (B A : MobilizedBody) (s : State) :
  calcBodyRotationFromBody B s A
  = (do X_AB <- calcBodyTransformFromBody B s A ;; Ok (R_ X_AB)).
Proof.
  unfold calcBodyRotationFromBody, calcBodyTransformFromBody, getBodyRotation.
  destruct (isSameMobilizedBody B A); [reflexivity |].
  destruct (isGround A); [reflexivity |].
  destruct (isGround B).
  - destruct (getBodyTransform A s); reflexivity.
  - destruct (getBodyTransform A s); [| reflexivity].
    destruct (getBodyTransform B s); reflexivity.
Qed.

Ltac unfold_algebra :=
  unfold SpatialVec_rotate, Transform_apply_inverse, Transform_apply,
    Transform_invert, Transform_compose, Rotation_apply, Rotation_mul,
    Rotation_transpose, col0, col1, col2, cross, dot, Vec3_add, Vec3_sub,
    Vec3_neg, Vec3_zero; cbn.

(** Split an equation between records of [Fin] entries into equations
    between the entries. *)
Ltac by_entries :=
  repeat match goal with
  | |- @eq Transform _ _ => f_equal
  | |- @eq Rotation _ _ => f_equal
  | |- @eq SpatialVec _ _ => f_equal
  | |- @eq Vec3 _ _ => f_equal
  | |- @eq Real (Fin _) (Fin _) => f_equal
  end.

(* ===================================================================== *)
(** ** The distance operators do not depend on which body is asked *)
(* ===================================================================== *)

Lemma Real_sub_swap (a b : Real) : (a - b)%Real = Real_neg (b - a)%Real.
Proof. destruct a, b; simpl; trivial. f_equal. ring. Qed.

Lemma Vec3_sub_swap (a b : Vec3) : (a - b)%Vec3 = Vec3_neg (b - a)%Vec3.
Proof.
  unfold Vec3_sub, Vec3_neg. simpl.
  now rewrite (Real_sub_swap (v0 a)), (Real_sub_swap (v1 a)),
    (Real_sub_swap (v2 a)).
Qed.

Lemma Real_mul_neg_neg (a b : Real) :
  (Real_neg a * Real_neg b)%Real = (a * b)%Real.
Proof. destruct a, b; simpl; trivial. f_equal. ring. Qed.

Lemma dot_neg_neg (a b : Vec3) : dot (Vec3_neg a) (Vec3_neg b) = dot a b.
Proof. unfold dot, Vec3_neg. simpl. now rewrite !Real_mul_neg_neg. Qed.

Lemma norm_neg (a : Vec3) : norm (Vec3_neg a) = norm a.
Proof. unfold norm. now rewrite dot_neg_neg. Qed.

Lemma Real_div_neg (a d : Real) : (Real_neg a / d)%Real = Real_neg (a / d)%Real.
Proof.
  destruct a as [x|], d as [y|]; simpl; trivial.
  destruct (Req_dec_T y 0); simpl; trivial. f_equal. field. assumption.
Qed.

Lemma Vec3_div_neg (a : Vec3) (d : Real) :
  Vec3_div (Vec3_neg a) d = Vec3_neg (Vec3_div a d).
Proof. unfold Vec3_div, Vec3_neg. simpl. now rewrite !Real_div_neg. Qed.

Lemma Real_mul_neg_r (c a : Real) : (c * Real_neg a)%Real = Real_neg (c * a)%Real.
Proof. destruct c, a; simpl; trivial. f_equal. ring. Qed.

Lemma Vec3_scale_neg (c : Real) (a : Vec3) :
  Vec3_scale c (Vec3_neg a) = Vec3_neg (Vec3_scale c a).
Proof. unfold Vec3_scale, Vec3_neg. simpl. now rewrite !Real_mul_neg_r. Qed.

Lemma Real_sub_neg_neg (a b : Real) :
  (Real_neg a - Real_neg b)%Real = Real_neg (a - b)%Real.
Proof. destruct a, b; simpl; trivial. f_equal. ring. Qed.

Lemma Vec3_sub_neg_neg (a b : Vec3) :
  (Vec3_neg a - Vec3_neg b)%Vec3 = Vec3_neg (a - b)%Vec3.
Proof. unfold Vec3_sub, Vec3_neg. simpl. now rewrite !Real_sub_neg_neg. Qed.

Lemma isSameMobilizedBody_sym (B A : MobilizedBody) :
  isSameMobilizedBody B A = isSameMobilizedBody A B.
Proof. unfold isSameMobilizedBody. apply Nat.eqb_sym. Qed.

(** X7: calcPointToPointDistance gives the same result, or the same
    failure, when the two bodies and their stations change places. *)
Theorem calcPointToPointDistance_symmetric (B A : MobilizedBody) (s : State)
    (pB pA : Vec3) :
  calcPointToPointDistance B s pB A pA = calcPointToPointDistance A s pA B pB.
Proof.
  unfold calcPointToPointDistance.
  rewrite (isSameMobilizedBody_sym A B).
  destruct (isSameMobilizedBody B A).
  - now rewrite Vec3_sub_swap, norm_neg.
  - unfold locateBodyPointOnGround, getBodyTransform, checkStage.
    destruct (Stage_leb Position (systemStage s)); simpl; [| reflexivity].
    now rewrite Vec3_sub_swap, norm_neg.
Qed.

(** The value of the distance rate from the relative position and
    velocity. *)
Lemma rate_swap (r v : Vec3) :
  (if Real_is_zero (norm (Vec3_neg r))
   then Ok (norm (Vec3_neg v))
   else Ok (dot (Vec3_neg v) (Vec3_div (Vec3_neg r) (norm (Vec3_neg r)))))
  = (if Real_is_zero (norm r)
     then Ok (norm v)
     else Ok (dot v (Vec3_div r (norm r)))).
Proof.
  now rewrite !norm_neg, Vec3_div_neg, dot_neg_neg.
Qed.

Lemma rate2_swap (r v a : Vec3) :
  (let r' := Vec3_neg r in
   let v' := Vec3_neg v in
   let a' := Vec3_neg a in
   let d := norm r' in
   let u := Vec3_div r' d in
   if Real_is_zero d
   then if Real_is_zero (norm v')
        then Ok (norm a')
        else Ok (dot a' (Vec3_div v' (norm v')))
   else Ok (dot a' u + dot (v' - Vec3_scale (dot v' u) u)%Vec3 v' / d)%Real)
  = (let d := norm r in
     let u := Vec3_div r d in
     if Real_is_zero d
     then if Real_is_zero (norm v)
          then Ok (norm a)
          else Ok (dot a (Vec3_div v (norm v)))
     else Ok (dot a u + dot (v - Vec3_scale (dot v u) u)%Vec3 v / d)%Real).
Proof.
  cbv zeta.
  now rewrite !norm_neg, !Vec3_div_neg, !dot_neg_neg, Vec3_scale_neg,
    Vec3_sub_neg_neg, !dot_neg_neg.
Qed.

(** X8: calcFixedPointToPointDistanceTimeDerivative and
    calcFixedPointToPointDistance2ndTimeDerivative give the same result,
    or the same failure, when the two bodies and their stations change
    places: the rate at which A recedes from B is the rate at which B
    recedes from A. *)
Theorem distance_rates_symmetric (B A : MobilizedBody) (s : State)
    (pB pA : Vec3) :
  calcFixedPointToPointDistanceTimeDerivative B s pB A pA
  = calcFixedPointToPointDistanceTimeDerivative A s pA B pB
  /\
  calcFixedPointToPointDistance2ndTimeDerivative B s pB A pA
  = calcFixedPointToPointDistance2ndTimeDerivative A s pA B pB.
Proof.
  unfold calcFixedPointToPointDistanceTimeDerivative,
    calcFixedPointToPointDistance2ndTimeDerivative.
  rewrite (isSameMobilizedBody_sym A B).
  destruct (isSameMobilizedBody B A); [split; reflexivity |].
  unfold_point_operators.
  destruct s as [g q u parts X V Ac m]; simpl.
  split; destruct g; simpl; try reflexivity.
  all: try (rewrite (Vec3_sub_swap (T_ (X (mobilizedBodyIndex A)) + _)%Vec3),
              (Vec3_sub_swap (sv1 (V (mobilizedBodyIndex A)) + _)%Vec3);
            apply rate_swap).
  all: rewrite (Vec3_sub_swap (T_ (X (mobilizedBodyIndex A)) + _)%Vec3),
         (Vec3_sub_swap (sv1 (V (mobilizedBodyIndex A)) + _)%Vec3),
         (Vec3_sub_swap (sv1 (Ac (mobilizedBodyIndex A)) + _ + _)%Vec3);
       apply rate2_swap.
Qed.

Lemma norm_nonneg (a : Vec3) (d : R) : norm a = Fin d -> 0 <= d.
Proof.
  unfold norm. destruct (dot a a) as [x|]; simpl; [| discriminate].
  destruct (Rlt_dec x 0); [discriminate |].
  intros [= <-]. apply sqrt_pos.
Qed.

(** X9: calcPointToPointDistance never returns a negative number.  For
    two stations of one body it returns |pA - pB| on every state, without
    reading it; for stations of two different bodies it needs the
    Position stage and fails with StageViolation below it. *)
Theorem calcPointToPointDistance_same_body (B A : MobilizedBody) (s : State)
    (pB pA : Vec3) :
  (forall d, calcPointToPointDistance B s pB A pA = Ok (Fin d) -> 0 <= d) /\
  calcPointToPointDistance B s pB B pA = Ok (norm (pA - pB)) /\
  (isSameMobilizedBody B A = false ->
   Stage_leb Position (systemStage s) = false ->
   calcPointToPointDistance B s pB A pA
   = Throw (StageViolation Position (systemStage s))).
Proof.
  split; [| split].
  - intros d. unfold calcPointToPointDistance.
    destruct (isSameMobilizedBody B A).
    + intros [= H]. exact (norm_nonneg _ _ H).
    + destruct (locateBodyPointOnGround B s pB); [| discriminate].
      destruct (locateBodyPointOnGround A s pA); [| discriminate].
      simpl. intros [= H]. exact (norm_nonneg _ _ H).
  - unfold calcPointToPointDistance.
    replace (isSameMobilizedBody B B) with true
      by (symmetry; apply Nat.eqb_refl).
    reflexivity.
  - intros Hdiff Hs. unfold calcPointToPointDistance, locateBodyPointOnGround,
      getBodyTransform.
    rewrite Hdiff, checkStage_fail by exact Hs. reflexivity.
Qed.

Lemma calcPointToPointDistance_same_body_witness :
  calcPointToPointDistance Example.pendulum (Example.stateAt Time)
    (Example.vec 1 0 0) Example.slider (Example.vec 4 4 0)
  = Throw (StageViolation Position Time).
Proof.
  refine (proj2 (proj2 (calcPointToPointDistance_same_body Example.pendulum
                          Example.slider (Example.stateAt Time)
                          (Example.vec 1 0 0) (Example.vec 4 4 0))) _ _);
    reflexivity.
Defined.

Example calcPointToPointDistance_pendulum :
  calcPointToPointDistance Example.pendulum (Example.stateAt Empty)
    (Example.vec 1 0 0) Example.pendulum (Example.vec 4 4 0) = Ok (Fin 5).
Proof.
  unfold calcPointToPointDistance. simpl. f_equal.
  apply norm_of_reals; lra.
Qed.

(* ===================================================================== *)
(** ** Relative velocity and acceleration of two bodies *)
(* ===================================================================== *)

(** X11: calcBodyAngularVelocityInBody, which has its own shorter body,
    returns the angular part of what calcBodySpatialVelocityInBody
    returns, and fails exactly when that one fails. *)
Theorem calcBodyAngularVelocityInBody_angular_part (B A : MobilizedBody)
    (s : State) :
  calcBodyAngularVelocityInBody B s A
  = (do V_AB <- calcBodySpatialVelocityInBody B s A ;; Ok (sv0 V_AB)).
Proof.
  unfold calcBodyAngularVelocityInBody, calcBodySpatialVelocityInBody,
    expressGroundVectorInBody, getBodyRotation, getBodyVelocity,
    getBodyTransform, checkStage.
  destruct s as [g q u parts X V Ac m]; simpl.
  destruct (isGround A); destruct g; reflexivity.
Qed.

Ltac zero_spatial :=
  unfold_algebra; unfold SpatialVec_zero, Vec3_zero;
  by_entries; ring.

(** X12: a body other than Ground neither moves nor accelerates relative
    to itself: on a realized state with finite cache entries
    calcBodySpatialVelocityInBody(s, B) and
    calcBodySpatialAccelerationInBody(s, B), asked of B itself, return
    zero, although neither has a same-body case. *)
Theorem body_at_rest_in_itself (B : MobilizedBody) (s : State) :
  isGround B = false ->
  Transform_finite (X_GB_cache s (mobilizedBodyIndex B)) ->
  SpatialVec_finite (V_GB_cache s (mobilizedBodyIndex B)) ->
  (Stage_leb Velocity (systemStage s) = true ->
   calcBodySpatialVelocityInBody B s B = Ok SpatialVec_zero) /\
  (Stage_leb Acceleration (systemStage s) = true ->
   SpatialVec_finite (A_GB_cache s (mobilizedBodyIndex B)) ->
   calcBodySpatialAccelerationInBody B s B = Ok SpatialVec_zero).
Proof.
  intros HG HX HV. split.
  - intros Hs.
    assert (Stage_leb Position (systemStage s) = true) as Hpos
      by (apply (Stage_leb_trans Position Velocity); trivial).
    unfold calcBodySpatialVelocityInBody.
    rewrite HG, getBodyVelocity_ok, getBodyTransform_ok by assumption.
    simpl. f_equal.
    destruct (X_GB_cache s (mobilizedBodyIndex B)) as [[? ? ?] ?].
    destruct (V_GB_cache s (mobilizedBodyIndex B)) as [? ?].
    unfold Transform_finite, SpatialVec_finite in *. simpl in *.
    finite_entries. zero_spatial.
  - intros Hs HA.
    assert (Stage_leb Velocity (systemStage s) = true) as Hvel
      by (apply (Stage_leb_trans Velocity Acceleration); trivial).
    assert (Stage_leb Position (systemStage s) = true) as Hpos
      by (apply (Stage_leb_trans Position Velocity); trivial).
    unfold calcBodySpatialAccelerationInBody.
    rewrite HG, getBodyAcceleration_ok, getBodyVelocity_ok,
      getBodyTransform_ok by assumption.
    simpl. f_equal.
    destruct (X_GB_cache s (mobilizedBodyIndex B)) as [[? ? ?] ?].
    destruct (V_GB_cache s (mobilizedBodyIndex B)) as [? ?].
    destruct (A_GB_cache s (mobilizedBodyIndex B)) as [? ?].
    unfold Transform_finite, SpatialVec_finite in *. simpl in *.
    finite_entries. zero_spatial.
Qed.

Lemma body_at_rest_in_itself_witness :
  calcBodySpatialVelocityInBody Example.pendulum (Example.stateAt Velocity)
    Example.pendulum = Ok SpatialVec_zero.
Proof.
  refine (proj1 (body_at_rest_in_itself Example.pendulum
                   (Example.stateAt Velocity) _ _ _) _);
    try reflexivity;
    unfold Transform_finite, SpatialVec_finite, Vec3_finite; cbn; tauto.
Defined.

(** X13: with Ground as body A and B another body, on a state realized far
    enough, calcBodyFixedPointVelocityInBody returns what
    calcBodyFixedPointVelocityInGround returns and
    calcBodyFixedPointAccelerationInBody what
    calcBodyFixedPointAccelerationInGround returns. *)
Theorem fixed_point_in_Ground_body (B A : MobilizedBody) (s : State) (p : Vec3) :
  isGround A = true ->
  isSameMobilizedBody B A = false ->
  (Stage_leb Velocity (systemStage s) = true ->
   calcBodyFixedPointVelocityInBody B s p A
   = calcBodyFixedPointVelocityInGround B s p) /\
  (Stage_leb Acceleration (systemStage s) = true ->
   calcBodyFixedPointAccelerationInBody B s p A
   = calcBodyFixedPointAccelerationInGround B s p).
Proof.
  intros HG Hdiff. split; intros Hs.
  - assert (Stage_leb Position (systemStage s) = true) as Hpos
      by (apply (Stage_leb_trans Position Velocity); trivial).
    unfold calcBodyFixedPointVelocityInBody, calcBodyRotationFromBody,
      calcBodySpatialVelocityInBody, calcBodyFixedPointVelocityInGround,
      getBodyAngularVelocity, getBodyOriginVelocity,
      expressBodyVectorInGround.
    rewrite Hdiff, HG, getBodyRotation_ok, getBodyVelocity_ok by assumption.
    reflexivity.
  - assert (Stage_leb Velocity (systemStage s) = true) as Hvel
      by (apply (Stage_leb_trans Velocity Acceleration); trivial).
    assert (Stage_leb Position (systemStage s) = true) as Hpos
      by (apply (Stage_leb_trans Position Velocity); trivial).
    unfold calcBodyFixedPointAccelerationInBody, calcBodyRotationFromBody,
      calcBodyAngularVelocityInBody, calcBodySpatialAccelerationInBody,
      calcBodyFixedPointAccelerationInGround, getBodyAngularVelocity,
      getBodyAngularAcceleration, getBodyOriginAcceleration,
      expressBodyVectorInGround.
    rewrite Hdiff, HG, getBodyRotation_ok, getBodyVelocity_ok,
      getBodyAcceleration_ok by assumption.
    reflexivity.
Qed.

Lemma fixed_point_in_Ground_body_witness :
  calcBodyFixedPointVelocityInBody Example.slider (Example.stateAt Velocity)
    (Example.vec 1 0 0) Example.ground
  = calcBodyFixedPointVelocityInGround Example.slider
      (Example.stateAt Velocity) (Example.vec 1 0 0).
Proof.
  refine (proj1 (fixed_point_in_Ground_body Example.slider Example.ground
                   (Example.stateAt Velocity) (Example.vec 1 0 0) _ _) _);
    reflexivity.
Defined.

(** On a state realized only to Position the two velocity operators fail
    differently: the in-body one asks for the rotation first. *)
Example fixed_point_velocity_unrealized :
  calcBodyFixedPointVelocityInBody Example.slider (Example.stateAt Time)
    (Example.vec 1 0 0) Example.ground
  = Throw (StageViolation Position Time)
  /\ calcBodyFixedPointVelocityInGround Example.slider (Example.stateAt Time)
       (Example.vec 1 0 0)
     = Throw (StageViolation Velocity Time).
Proof. split; reflexivity. Qed.

(** X15: a station fixed on a body B other than Ground neither moves nor
    accelerates relative to B: asked for the station in B itself,
    calcBodyFixedPointVelocityInBody and
    calcBodyFixedPointAccelerationInBody return zero on a realized state
    with finite cache entries. *)
Theorem station_at_rest_in_own_body (B : MobilizedBody) (s : State) (p : Vec3) :
  isGround B = false ->
  Transform_finite (X_GB_cache s (mobilizedBodyIndex B)) ->
  SpatialVec_finite (V_GB_cache s (mobilizedBodyIndex B)) ->
  Vec3_finite p ->
  (Stage_leb Velocity (systemStage s) = true ->
   calcBodyFixedPointVelocityInBody B s p B = Ok Vec3_zero) /\
  (Stage_leb Acceleration (systemStage s) = true ->
   SpatialVec_finite (A_GB_cache s (mobilizedBodyIndex B)) ->
   calcBodyFixedPointAccelerationInBody B s p B = Ok Vec3_zero).
Proof.
  intros HG HX HV Hp.
  assert (isSameMobilizedBody B B = true) as Hsame by apply Nat.eqb_refl.
  split.
  - intros Hs.
    assert (Stage_leb Position (systemStage s) = true) as Hpos
      by (apply (Stage_leb_trans Position Velocity); trivial).
    unfold calcBodyFixedPointVelocityInBody, calcBodyRotationFromBody,
      calcBodySpatialVelocityInBody.
    rewrite Hsame, HG.
    rewrite !getBodyVelocity_ok, !getBodyTransform_ok by assumption.
    simpl.
    destruct (X_GB_cache s (mobilizedBodyIndex B)) as [[? ? ?] ?].
    destruct (V_GB_cache s (mobilizedBodyIndex B)) as [? ?].
    unfold Transform_finite, SpatialVec_finite in *. simpl in *.
    finite_entries.
    f_equal; unfold Rotation_identity; unfold_algebra;
      f_equal; f_equal; ring.
  - intros Hs HA.
    assert (Stage_leb Velocity (systemStage s) = true) as Hvel
      by (apply (Stage_leb_trans Velocity Acceleration); trivial).
    assert (Stage_leb Position (systemStage s) = true) as Hpos
      by (apply (Stage_leb_trans Position Velocity); trivial).
    unfold calcBodyFixedPointAccelerationInBody, calcBodyRotationFromBody,
      calcBodyAngularVelocityInBody, calcBodySpatialAccelerationInBody,
      expressGroundVectorInBody.
    rewrite Hsame, HG.
    rewrite !getBodyAcceleration_ok, !getBodyVelocity_ok,
      !getBodyRotation_ok, !getBodyTransform_ok by assumption.
    simpl.
    destruct (X_GB_cache s (mobilizedBodyIndex B)) as [[? ? ?] ?].
    destruct (V_GB_cache s (mobilizedBodyIndex B)) as [? ?].
    destruct (A_GB_cache s (mobilizedBodyIndex B)) as [? ?].
    unfold Transform_finite, SpatialVec_finite in *. simpl in *.
    finite_entries.
    f_equal; unfold Rotation_identity; unfold_algebra;
      f_equal; f_equal; ring.
Qed.

Lemma station_at_rest_in_own_body_witness :
  calcBodyFixedPointVelocityInBody Example.pendulum
    (Example.stateAt Velocity) (Example.vec 1 2 0) Example.pendulum
  = Ok Vec3_zero.
Proof.
  refine (proj1 (station_at_rest_in_own_body Example.pendulum
                   (Example.stateAt Velocity) (Example.vec 1 2 0) _ _ _ _) _);
    try reflexivity;
    unfold Transform_finite, SpatialVec_finite, Vec3_finite; cbn; tauto.
Defined.

(* ===================================================================== *)
(** ** The origin of one body seen from another *)
(* ===================================================================== *)

(** X17: for a body B other than Ground, on a Position-realized state
    with finite transforms, calcBodyOriginLocationInBody returns what
    calcBodyPointLocationInBody returns for the station at B's origin. *)
Theorem calcBodyOriginLocationInBody_is_origin_station (B A : MobilizedBody)
    (s : State) :
  Stage_leb Position (systemStage s) = true ->
  isGround B = false ->
  Transform_finite (X_GB_cache s (mobilizedBodyIndex B)) ->
  Transform_finite (X_GB_cache s (mobilizedBodyIndex A)) ->
  calcBodyOriginLocationInBody B s A
  = calcBodyPointLocationInBody B s Vec3_zero A.
Proof.
  intros Hs HG HB HA.
  unfold calcBodyOriginLocationInBody, calcBodyPointLocationInBody,
    locateBodyPointOnBody, locateBodyPointOnGround, locateGroundPointOnBody,
    getBodyOriginLocation.
  rewrite HG, !getBodyTransform_ok by exact Hs.
  destruct (isSameMobilizedBody B A); [reflexivity |]. simpl.
  assert (Transform_apply (X_GB_cache s (mobilizedBodyIndex B)) Vec3_zero
          = T_ (X_GB_cache s (mobilizedBodyIndex B))) as E.
  { destruct (X_GB_cache s (mobilizedBodyIndex B)) as [[? ? ?] ?].
    unfold Transform_finite in *. simpl in *. finite_entries.
    unfold_algebra. f_equal; f_equal; ring. }
  rewrite E. destruct (isGround A); reflexivity.
Qed.

Lemma calcBodyOriginLocationInBody_is_origin_station_witness :
  calcBodyOriginLocationInBody Example.pendulum (Example.stateAt Position)
    Example.slider
  = calcBodyPointLocationInBody Example.pendulum (Example.stateAt Position)
      Vec3_zero Example.slider.
Proof.
  apply (calcBodyOriginLocationInBody_is_origin_station Example.pendulum
           Example.slider (Example.stateAt Position));
    try reflexivity; unfold Transform_finite, Vec3_finite; cbn; tauto.
Defined.

(* ===================================================================== *)
(** ** Mass properties *)
(* ===================================================================== *)

(** X20: calcBodyMassPropertiesInBody keeps to the stages its
    documentation gives.  Where the mass properties of B can be read, it
    returns them unchanged for A = B without asking for the Position
    stage; for another body A it fails with StageViolation on a state not
    realized to Position, and on a Position-realized state re-expresses by
    ~R_GB when A is Ground and by ~R_GB * R_GA otherwise. *)
Theorem calcBodyMassPropertiesInBody_stage
    (getBodyMassProperties : MobilizedBody -> State -> Result MassProperties)
    (reexpress : MassProperties -> Rotation -> MassProperties)
    (B A : MobilizedBody) (s : State) (mprops : MassProperties) :
  getBodyMassProperties B s = Ok mprops ->
  calcBodyMassPropertiesInBody getBodyMassProperties reexpress B s B
  = Ok mprops /\
  (isSameMobilizedBody B A = false ->
   Stage_leb Position (systemStage s) = false ->
   calcBodyMassPropertiesInBody getBodyMassProperties reexpress B s A
   = Throw (StageViolation Position (systemStage s))) /\
  (isSameMobilizedBody B A = false ->
   Stage_leb Position (systemStage s) = true ->
   calcBodyMassPropertiesInBody getBodyMassProperties reexpress B s A
   = Ok (reexpress mprops
           (let R_BG := Rotation_transpose
                          (R_ (X_GB_cache s (mobilizedBodyIndex B))) in
            if isGround A then R_BG
            else Rotation_mul R_BG
                   (R_ (X_GB_cache s (mobilizedBodyIndex A)))))).
Proof.
  intros Hmp. split; [| split].
  - unfold calcBodyMassPropertiesInBody. rewrite Hmp. simpl.
    replace (isSameMobilizedBody B B) with true
      by (symmetry; apply Nat.eqb_refl).
    reflexivity.
  - intros Hdiff Hs.
    unfold calcBodyMassPropertiesInBody, getBodyRotation, getBodyTransform.
    rewrite Hmp, Hdiff, checkStage_fail by exact Hs. reflexivity.
  - intros Hdiff Hs.
    unfold calcBodyMassPropertiesInBody.
    rewrite Hmp, Hdiff, !getBodyRotation_ok by exact Hs. simpl.
    destruct (isGround A); reflexivity.
Qed.

Lemma calcBodyMassPropertiesInBody_stage_witness :
  calcBodyMassPropertiesInBody Example.getBodyMassProperties
    (fun mprops _ => mprops) Example.pendulum (Example.stateAt Instance)
    Example.slider
  = Throw (StageViolation Position Instance).
Proof.
  refine (proj1 (proj2 (calcBodyMassPropertiesInBody_stage
                          Example.getBodyMassProperties (fun mprops _ => mprops)
                          Example.pendulum Example.slider
                          (Example.stateAt Instance)
                          (Example.massProperties 1) eq_refl)) _ _);
    reflexivity.
Defined.

(* ===================================================================== *)
(** ** More on mobility forces *)
(* ===================================================================== *)

Lemma addInto_commute (v v1 v2 : list Real) (i j : nat) (f g : Real) :
  i <> j ->
  addInto v i f = Ok v1 -> addInto v j g = Ok v2 ->
  addInto v1 j g = addInto v2 i f.
Proof.
  intros Hij. unfold addInto.
  destruct (v !! i) as [x|] eqn:Ei; [| discriminate].
  destruct (v !! j) as [y|] eqn:Ej; [| discriminate].
  intros [= <-] [= <-].
  rewrite list_lookup_insert_ne, Ej by exact Hij.
  rewrite list_lookup_insert_ne, Ei by (intros E; apply Hij; now symmetry).
  f_equal. now apply list_insert_insert_ne.
Qed.

(** X21: two applyOneMobilityForce calls that address different slots of
    the mobility force vector can be made in either order: the resulting
    vector is the same. *)
Theorem applyOneMobilityForce_commute (B1 B2 : MobilizedBody) (s : State)
    (which1 which2 : Z) (f1 f2 : Real) (forces forces1 forces2 : list Real) :
  (uStart (partition s (mobilizedBodyIndex B1)) + Z.to_nat which1 <>
   uStart (partition s (mobilizedBodyIndex B2)) + Z.to_nat which2)%nat ->
  applyOneMobilityForce B1 s which1 f1 forces = Ok forces1 ->
  applyOneMobilityForce B2 s which2 f2 forces = Ok forces2 ->
  applyOneMobilityForce B2 s which2 f2 forces1
  = applyOneMobilityForce B1 s which1 f1 forces2
  /\ exists forces12, applyOneMobilityForce B2 s which2 f2 forces1 = Ok forces12.
Proof.
  intros Hslots H1 H2.
  unfold applyOneMobilityForce, updOneFromUPartition, getNumU in *.
  destruct (checkStage s Model) as [[]|e]; simpl in *; [| discriminate].
  destruct (length forces =? length (uVector s))%nat eqn:Hlen;
    simpl in *; [| discriminate].
  destruct ((0 <=? which1)%Z && _)%bool; [| discriminate].
  destruct ((0 <=? which2)%Z && _)%bool; [| discriminate].
  simpl in *.
  assert (length forces1 = length forces) as L1.
  { unfold addInto in H1. destruct (forces !! _); [| discriminate].
    injection H1 as <-. apply length_insert. }
  assert (length forces2 = length forces) as L2.
  { unfold addInto in H2. destruct (forces !! _); [| discriminate].
    injection H2 as <-. apply length_insert. }
  rewrite L1, L2, Hlen. simpl.
  split; [now apply (addInto_commute forces) |].
  unfold addInto in *.
  destruct (forces !! (uStart (partition s (mobilizedBodyIndex B1))
                       + Z.to_nat which1)%nat) eqn:E1; [| discriminate].
  destruct (forces !! (uStart (partition s (mobilizedBodyIndex B2))
                       + Z.to_nat which2)%nat) eqn:E2; [| discriminate].
  injection H1 as <-.
  rewrite list_lookup_insert_ne, E2 by exact Hslots. eauto.
Qed.

Lemma applyOneMobilityForce_commute_witness :
  applyOneMobilityForce Example.slider (Example.stateAt Model) 0 (Fin 3)
    [Fin (10 + 2); Fin 20]
  = applyOneMobilityForce Example.pendulum (Example.stateAt Model) 0 (Fin 2)
      [Fin 10; Fin (20 + 3)].
Proof.
  refine (proj1 (applyOneMobilityForce_commute Example.pendulum Example.slider
                   (Example.stateAt Model) 0 0 (Fin 2) (Fin 3)
                   [Fin 10; Fin 20] _ _ _ _ _)).
  - simpl. lia.
  - reflexivity.
  - reflexivity.
Defined.

(** X22: what Pin::applyPinTorque (Slider::applyForce) adds is what
    Pin::getAppliedPinTorque (Slider::getAppliedForce) reads back: after a
    successful call on a vector whose slot held [old], reading the result
    gives [old + torque]. *)
Theorem applied_force_read_back (B : MobilizedBody) (s : State) (f : Real)
    (forces forces' : list Real) (old : Real) :
  Pin_getAppliedPinTorque B s forces = Ok old ->
  (Pin_applyPinTorque B s f forces = Ok forces' ->
   Pin_getAppliedPinTorque B s forces' = Ok (old + f)%Real) /\
  (Slider_applyForce B s f forces = Ok forces' ->
   Slider_getAppliedForce B s forces' = Ok (old + f)%Real).
Proof.
  intros Hold.
  assert (forall slot,
            updOneFromUPartition B s 0 forces = Ok slot ->
            addInto forces slot f = Ok forces' ->
            getMyPartU1 B s forces' = Ok (old + f)%Real) as Hgen.
  { intros slot Hslot Hadd.
    unfold Pin_getAppliedPinTorque, getMyPartU1 in *.
    rewrite Hslot in Hold. simpl in Hold.
    unfold addInto in Hadd.
    destruct (forces !! slot) as [x|] eqn:Ex; [| discriminate].
    injection Hold as ->. injection Hadd as <-.
    assert (updOneFromUPartition B s 0 (<[slot:=(old + f)%Real]> forces)
            = Ok slot) as Hslot'.
    { unfold updOneFromUPartition in *. rewrite length_insert. exact Hslot. }
    rewrite Hslot'. simpl.
    rewrite list_lookup_insert_eq; [reflexivity |].
    now apply lookup_lt_Some in Ex. }
  split; intros Hrun.
  - unfold Pin_applyPinTorque, Pin_updMyPartU in Hrun.
    destruct (updOneFromUPartition B s 0 forces) as [slot|] eqn:Hslot;
      [| discriminate].
    now apply (Hgen slot).
  - unfold Slider_applyForce in Hrun.
    destruct (updOneFromUPartition B s 0 forces) as [slot|] eqn:Hslot;
      [| discriminate].
    now apply (Hgen slot).
Qed.

Lemma applied_force_read_back_witness :
  Pin_getAppliedPinTorque Example.pendulum (Example.stateAt Model)
    [Fin (10 + 2); Fin 20] = Ok (Fin 10 + Fin 2)%Real.
Proof.
  refine (proj1 (applied_force_read_back Example.pendulum
                   (Example.stateAt Model) (Fin 2) [Fin 10; Fin 20]
                   [Fin (10 + 2); Fin 20] (Fin 10) _) _); reflexivity.
Defined.

(* ===================================================================== *)
(** ** Setting the coordinates of a Planar mobilizer *)
(* ===================================================================== *)

Lemma setOneQ_ok (B : MobilizedBody) (s : State) (which : Z) (v : Real) :
  Stage_leb Model (systemStage s) = true ->
  (0 <= which < Z.of_nat (nq (partition s (mobilizedBodyIndex B))))%Z ->
  setOneQ B s which v
  = Ok (invalidate
          (setQ s (<[(qStart (partition s (mobilizedBodyIndex B))
                      + Z.to_nat which)%nat := v]> (qVector s)))
          Position).
Proof.
  intros Hs Hw. unfold setOneQ, getNumQ.
  rewrite checkStage_ok by exact Hs. simpl.
  destruct (Z.leb_spec 0 which); [| lia].
  destruct (Z.ltb_spec which
              (Z.of_nat (nq (partition s (mobilizedBodyIndex B)))));
    [reflexivity | lia].
Qed.

Lemma getOneQ_ok (B : MobilizedBody) (s : State) (which : Z) (x : Real) :
  Stage_leb Model (systemStage s) = true ->
  (0 <= which < Z.of_nat (nq (partition s (mobilizedBodyIndex B))))%Z ->
  qVector s !! (qStart (partition s (mobilizedBodyIndex B))
                + Z.to_nat which)%nat = Some x ->
  getOneQ B s which = Ok x.
Proof.
  intros Hs Hw Hx. unfold getOneQ, getNumQ.
  rewrite checkStage_ok by exact Hs. simpl.
  destruct (Z.leb_spec 0 which); [| lia].
  destruct (Z.ltb_spec which
              (Z.of_nat (nq (partition s (mobilizedBodyIndex B)))));
    [| lia].
  simpl. now rewrite Hx.
Qed.

Lemma invalidate_keeps_Model (s : State) :
  Stage_leb Model (systemStage s) = true ->
  Stage_leb Model (systemStage (invalidate s Position)) = true.
Proof.
  unfold invalidate. simpl. destruct (systemStage s); simpl; trivial.
Qed.

(** X23: for a Planar mobilizer (three coordinates: angle, x, y) on a
    state realized at least to Model, Planar::setTranslation succeeds,
    stores the two components in the mobilizer's coordinates 1 and 2,
    leaves its angle and every other entry of q as they were, and leaves
    the state below Position; Planar::setAngle stores the angle in
    coordinate 0 and leaves the translation as it was. *)
Theorem Planar_setters (B : MobilizedBody) (s : State) (r : Vec2) (a : Real)
    (angle x y : Real) :
  let start := qStart (partition s (mobilizedBodyIndex B)) in
  Stage_leb Model (systemStage s) = true ->
  nq (partition s (mobilizedBodyIndex B)) = 3%nat ->
  qVector s !! start = Some angle ->
  qVector s !! (start + 1)%nat = Some x ->
  qVector s !! (start + 2)%nat = Some y ->
  (exists s',
      Planar_setTranslation B s r = Ok s' /\
      getOneQ B s' 0 = Ok angle /\
      getOneQ B s' 1 = Ok (w0 r) /\ getOneQ B s' 2 = Ok (w1 r) /\
      (forall j, j <> (start + 1)%nat -> j <> (start + 2)%nat ->
                 qVector s' !! j = qVector s !! j) /\
      Stage_leb Position (systemStage s') = false) /\
  (exists s',
      Planar_setAngle B s a = Ok s' /\
      getOneQ B s' 0 = Ok a /\
      getOneQ B s' 1 = Ok x /\ getOneQ B s' 2 = Ok y /\
      Stage_leb Position (systemStage s') = false).
Proof.
  intros start Hs Hnq Hangle Hx Hy.
  pose proof (lookup_lt_Some _ _ _ Hangle) as L0.
  pose proof (lookup_lt_Some _ _ _ Hx) as L1.
  pose proof (lookup_lt_Some _ _ _ Hy) as L2.
  assert (forall t, Stage_leb Position (systemStage (invalidate t Position))
                    = false) as Hbelow.
  { intros t. unfold invalidate. simpl. destruct (systemStage t); reflexivity. }
  split.
  - unfold Planar_setTranslation.
    rewrite setOneQ_ok by (trivial; rewrite Hnq; lia). simpl.
    rewrite setOneQ_ok
      by (try (now apply invalidate_keeps_Model); simpl; rewrite Hnq; lia).
    simpl. fold start.
    eexists. split; [reflexivity |].
    split; [| split; [| split; [| split]]].
    + apply getOneQ_ok;
        [clear - Hs; simpl; destruct (systemStage s); simpl in *;
           (reflexivity || discriminate)
        | simpl; rewrite Hnq; lia |].
      simpl. fold start.
      rewrite !list_lookup_insert_ne by lia.
      now rewrite Nat.add_0_r.
    + apply getOneQ_ok;
        [clear - Hs; simpl; destruct (systemStage s); simpl in *;
           (reflexivity || discriminate)
        | simpl; rewrite Hnq; lia |].
      simpl. fold start.
      rewrite list_lookup_insert_ne by lia.
      apply list_lookup_insert_eq. exact L1.
    + apply getOneQ_ok;
        [clear - Hs; simpl; destruct (systemStage s); simpl in *;
           (reflexivity || discriminate)
        | simpl; rewrite Hnq; lia |].
      simpl. fold start.
      apply list_lookup_insert_eq. rewrite length_insert. exact L2.
    + intros j Hj1 Hj2. simpl.
      rewrite !list_lookup_insert_ne by (intros E; lia). reflexivity.
    + apply Hbelow.
  - unfold Planar_setAngle.
    rewrite setOneQ_ok by (trivial; rewrite Hnq; lia). simpl. fold start.
    eexists. split; [reflexivity |].
    split; [| split; [| split]].
    + apply getOneQ_ok;
        [clear - Hs; simpl; destruct (systemStage s); simpl in *;
           (reflexivity || discriminate)
        | simpl; rewrite Hnq; lia |].
      simpl. fold start. apply list_lookup_insert_eq. lia.
    + apply getOneQ_ok;
        [clear - Hs; simpl; destruct (systemStage s); simpl in *;
           (reflexivity || discriminate)
        | simpl; rewrite Hnq; lia |].
      simpl. fold start. rewrite list_lookup_insert_ne by lia. exact Hx.
    + apply getOneQ_ok;
        [clear - Hs; simpl; destruct (systemStage s); simpl in *;
           (reflexivity || discriminate)
        | simpl; rewrite Hnq; lia |].
      simpl. fold start. rewrite list_lookup_insert_ne by lia. exact Hy.
    + apply Hbelow.
Qed.

Lemma Planar_setters_witness :
  exists s',
    Planar_setTranslation Example.planar (Example.planarState Velocity)
      (mkVec2 (Fin 7) (Fin 8)) = Ok s' /\
    getOneQ Example.planar s' 0 = Ok (Fin 10) /\
    getOneQ Example.planar s' 1 = Ok (Fin 7) /\
    getOneQ Example.planar s' 2 = Ok (Fin 8) /\
    (forall j, j <> 3%nat -> j <> 4%nat ->
               qVector s' !! j = qVector (Example.planarState Velocity) !! j) /\
    Stage_leb Position (systemStage s') = false.
Proof.
  refine (proj1 (Planar_setters Example.planar (Example.planarState Velocity)
                   (mkVec2 (Fin 7) (Fin 8)) (Fin 0)
                   (Fin 10) (Fin 11) (Fin 12) _ _ _ _ _)); reflexivity.
Defined.

Example Planar_setTranslation_example :
  Planar_setTranslation Example.planar (Example.planarState Velocity)
    (mkVec2 (Fin 7) (Fin 8))
  = Ok (mkState Time [Fin 0; Fin 0; Fin 10; Fin 7; Fin 8]
          [Fin 1; Fin 5; Fin 0; Fin 0; Fin 0] Example.planarParts
          Example.transforms Example.velocities Example.accelerations []).
Proof. reflexivity. Qed.

(* ===================================================================== *)
(** ** Constraint::calcAccelerationErrorFromUDot *)
(* ===================================================================== *)

(** X24: calcAccelerationErrorFromUDot is guarded by a plain [assert]: a
    build without NDEBUG aborts on every call, and a build with NDEBUG
    returns the empty vector on every call, which for a constraint with
    at least one equation is not the mp+mv+ma entries that
    getAccelerationError returns. *)
Theorem calcAccelerationErrorFromUDot_outcome (c : Constraint) (s : State)
    (udot : list Real) :
  calcAccelerationErrorFromUDot false c s udot
  = Aborts msg_calcAccelerationErrorFromUDot /\
  calcAccelerationErrorFromUDot true c s udot = Returns [] /\
  (forall aerr,
      (0 < numEquations c)%nat ->
      getAccelerationError c s = Ok aerr ->
      calcAccelerationErrorFromUDot true c s udot <> Returns aerr).
Proof.
  split; [reflexivity |]. split; [reflexivity |].
  intros aerr Hpos Herr. unfold getAccelerationError in Herr.
  destruct (checkStage s Acceleration); [| discriminate].
  simpl in Herr. injection Herr as <-.
  unfold calcAccelerationErrorFromUDot. simpl. intros [= E].
  apply (f_equal length) in E. simpl in E.
  rewrite !length_app, !length_fillBuffer in E.
  unfold numEquations in Hpos. lia.
Qed.

Lemma calcAccelerationErrorFromUDot_outcome_witness :
  calcAccelerationErrorFromUDot true Example.custom Example.constrainedState []
  <> Returns (fillBuffer 1 (fun _ => Fin 12) ++ fillBuffer 2 (fun _ => Fin 21)
              ++ fillBuffer 1 (fun _ => Fin 30)).
Proof.
  refine (proj2 (proj2 (calcAccelerationErrorFromUDot_outcome Example.custom
                          Example.constrainedState [])) _ _ _).
  - unfold numEquations. simpl. lia.
  - reflexivity.
Defined.

(** The fourth moving-point stub fails like the three others. *)
Lemma calcMovingPointToPointDistance2ndTimeDerivative_fails
    (B A : MobilizedBody) (s : State) (pB vB aB pA vA aA : Vec3) :
  calcMovingPointToPointDistance2ndTimeDerivative B s pB vB aB A pA vA aA
  = Throw (Assert unimplemented_method
             msg_calcMovingPointToPointDistance2ndTimeDerivative).
Proof. reflexivity. Qed.
